(** * Sia-UI wallet plugin: the sagas of [plugins/Wallet/js/sagas/wallet.js]

    The file holds nine generator functions run by the redux-saga
    middleware, one per command of the wallet plugin.  Each of them
    calls the daemon through [siadCall], dispatches actions with [put]
    and, in one place, waits for an action with [take].

    The embedding below keeps the generators as they are written: a
    generator is a tree of yields whose continuation receives what the
    middleware passes back ([next] with a value, or [throw] with an
    error), [try]/[catch] is a function on such trees, and running a
    tree against an environment gives the ordered list of what the
    generator did. *)

From Stdlib Require Import ZArith NArith List String Ascii Bool Lia.
From Stdlib Require Import DecimalString.
From ExtLib Require Import Structures.Monad Structures.MonadExc.
Import ListNotations.
Import MonadNotation.
Local Open Scope string_scope.
Local Open Scope monad_scope.

(** ** JavaScript values *)

Module JS.

(** The values the sagas handle: JSON-like data returned by the
    daemon, the fields of the triggering action, and the values that
    are thrown.  Numbers are restricted to integers; no saga computes
    on a number. *)
#[warnings="-register-all"]
Inductive value : Type :=
| VUndefined
| VNull
| VBool (b : bool)
| VNum (n : Z)
| VStr (s : string)
| VObj (fields : list (string * value))
| VError (name message : string).

(** The outcome of evaluating an expression: a value, or a throw. *)
Inductive completion (A : Type) : Type :=
| Normal (a : A)
| Abrupt (e : value).
Arguments Normal {A} a.
Arguments Abrupt {A} e.

Definition TypeError (message : string) : value := VError "TypeError" message.

Fixpoint lookup (key : string) (fields : list (string * value)) : value :=
  match fields with
  | [] => VUndefined
  | (k, v) :: rest => if String.eqb k key then v else lookup key rest
  end.

(** [v.key]: reading a property of [undefined] or [null] throws a
    [TypeError]; a missing property reads as [undefined]. *)
Definition getField (v : value) (key : string) : completion value :=
  match v with
  | VUndefined =>
      Abrupt (TypeError ("Cannot read property '" ++ key ++ "' of undefined"))
  | VNull =>
      Abrupt (TypeError ("Cannot read property '" ++ key ++ "' of null"))
  | VObj fields => Normal (lookup key fields)
  | VError name message =>
      if String.eqb key "message" then Normal (VStr message)
      else if String.eqb key "name" then Normal (VStr name)
      else Normal VUndefined
  | VBool _ | VNum _ | VStr _ => Normal VUndefined
  end.

(** ToBoolean, as used by [if (x)] and [!x]. *)
Definition truthy (v : value) : bool :=
  match v with
  | VUndefined | VNull => false
  | VBool b => b
  | VNum n => negb (Z.eqb n 0)
  | VStr s => negb (String.eqb s "")
  | VObj _ | VError _ _ => true
  end.

Definition isUndefined (v : value) : bool :=
  match v with VUndefined => true | _ => false end.

(** [v === 'literal']. *)
Definition isString (v : value) (literal : string) : bool :=
  match v with VStr s => String.eqb s literal | _ => false end.

Definition nullish (v : value) : bool :=
  match v with VUndefined | VNull => true | _ => false end.

Definition decimal (n : Z) : string := NilZero.string_of_int (Z.to_int n).

(** [v.toString()]: there is no method to call on [undefined] and
    [null]; a plain object prints as [[object Object]], an error as
    its name and message. *)
Definition toString (v : value) : completion string :=
  match v with
  | VUndefined =>
      Abrupt (TypeError "Cannot read property 'toString' of undefined")
  | VNull =>
      Abrupt (TypeError "Cannot read property 'toString' of null")
  | VBool true => Normal "true"
  | VBool false => Normal "false"
  | VNum n => Normal (decimal n)
  | VStr s => Normal s
  | VObj _ => Normal "[object Object]"
  | VError name "" => Normal name
  | VError name message => Normal (name ++ ": " ++ message)
  end.

(** ['prefix' + v] for a string [prefix]. *)
Definition concat (prefix : string) (v : value) : string :=
  match v with
  | VUndefined => prefix ++ "undefined"
  | VNull => prefix ++ "null"
  | _ => match toString v with
         | Normal s => prefix ++ s
         | Abrupt _ => prefix
         end
  end.

End JS.
Import JS.

(** ** BigNumber

    [SiaAPI.hastingsToSiacoins] and [SiaAPI.siacoinsToHastings] return
    objects of the bignumber.js library; the sagas call [minus],
    [round] and [toString] on them.  A finite BigNumber is a decimal
    fraction [m / 10^dp]; the library also has [NaN] and the two
    infinities.  [toString] is the normal notation, the one the library
    prints for every magnitude below [10^21] (above that, its default
    setting switches to the exponential notation). *)

Module BigNumber.
Local Open Scope Z_scope.

Inductive t : Type :=
| NaN
| Infinity (negative : bool)
| Finite (m : Z) (dp : nat).

Definition pow10 (k : nat) : Z := 10 ^ Z.of_nat k.

(** [x.minus(y)] *)
Definition minus (x y : t) : t :=
  match x, y with
  | NaN, _ | _, NaN => NaN
  | Infinity s, Infinity s' => if Bool.eqb s s' then NaN else Infinity s
  | Infinity s, Finite _ _ => Infinity s
  | Finite _ _, Infinity s => Infinity (negb s)
  | Finite a da, Finite b db =>
      let d := Nat.max da db in
      Finite (a * pow10 (d - da) - b * pow10 (d - db)) d
  end.

(** [x.round(places)] with the library's default rounding mode,
    ROUND_HALF_UP: to the nearest neighbour, and away from zero when
    both are equally near.  A value with no more than [places] decimal
    places is returned as it is. *)
Definition round (places : nat) (x : t) : t :=
  match x with
  | Finite m dp =>
      if (dp <=? places)%nat then x
      else
        let scale := pow10 (dp - places) in
        let q := Z.abs m / scale in
        let r := Z.abs m mod scale in
        let q' := if (scale <=? 2 * r)%Z then (q + 1)%Z else q in
        Finite (Z.sgn m * q') places
  | _ => x
  end.

(** Trailing zeros of the fraction are not part of a BigNumber. *)
Fixpoint normalize (n : Z) (dp : nat) : Z * nat :=
  match dp with
  | O => (n, O)
  | S dp' => if (n mod 10 =? 0)%Z then normalize (n / 10) dp' else (n, dp)
  end.

Definition digit (d : Z) : ascii :=
  ascii_of_nat (48 + Z.to_nat d).

(** The last [k] decimal digits of [n]. *)
Fixpoint fraction (n : Z) (k : nat) : string :=
  match k with
  | O => EmptyString
  | S k' => fraction (n / 10) k' ++ String (digit (n mod 10)) EmptyString
  end.

Definition integer (n : Z) : string := NilZero.string_of_uint (N.to_uint (Z.to_N n)).

(** [x.toString()] *)
Definition toString (x : t) : string :=
  match x with
  | NaN => "NaN"
  | Infinity false => "Infinity"
  | Infinity true => "-Infinity"
  | Finite m dp =>
      let (n, k) := normalize (Z.abs m) dp in
      let sign := if m <? 0 then "-" else "" in
      match k with
      | O => sign ++ integer n
      | S _ => sign ++ integer (n / pow10 k) ++ "." ++ fraction n k
      end
  end.

End BigNumber.

(** The last character of a string, and whether a character occurs in
    it: enough to tell ["2500.00"] from what [toString] prints. *)
Fixpoint lastChar (s : string) : option ascii :=
  match s with
  | EmptyString => None
  | String c EmptyString => Some c
  | String _ rest => lastChar rest
  end.

Fixpoint hasChar (c : ascii) (s : string) : bool :=
  match s with
  | EmptyString => false
  | String c' rest => Ascii.eqb c c' || hasChar c rest
  end.

(** ** Actions and action types *)

(** What the action creators of [actions/wallet.js] and
    [actions/error.js] build.  The sagas only pass these objects to
    [put]; an action is kept as the creator applied to its arguments. *)
Inductive action : Type :=
| setLocked
| setUnlocked
| setEncrypted
| setUnencrypted
| handlePasswordChange (password : value)
| walletUnlockError (err : value)
| showNewWalletDialog (seed seedConfirm : value)
| dismissNewWalletDialog
| setBalance (confirmed unconfirmed siafunds : value)
| setTransactions (transactions : value)
| setReceiveAddress (address : value)
| showReceivePrompt
| closeSendPrompt
| getBalance
| getTransactions
| setSendAmount (amount : value)
| setSendAddress (address : value)
| setSyncState (synced : value).

(** The members of [constants/wallet.js] that the sagas name. *)
Inductive constant : Type :=
| CREATE_NEW_WALLET
| GET_LOCK_STATUS
| UNLOCK_WALLET
| LOCK_WALLET
| GET_BALANCE
| GET_TRANSACTIONS
| GET_NEW_RECEIVE_ADDRESS
| SEND_CURRENCY
| GET_SYNCSTATE
| SET_UNLOCKED.

(** Modelled from the spec: the [type] field that the action creators
    of [actions/wallet.js] set, a file that is not part of the sources
    at hand.  The spec has CreateWallet wait for "a SetUnlocked
    state-update event", and has the puts of [getBalance] and
    [getTransactions] re-invoke GetBalance and GetTransactions; every
    other action built here is a state update of a type of its own. *)
Definition hasType (c : constant) (a : action) : bool :=
  match c, a with
  | SET_UNLOCKED, setUnlocked => true
  | GET_BALANCE, getBalance => true
  | GET_TRANSACTIONS, getTransactions => true
  | _, _ => false
  end.

(** The action object a watcher hands to its saga, as far as the sagas
    read it; a property that is absent reads as [undefined]. *)
Record command : Type := {
  type : constant;
  password : value;
  currencytype : value;
  amount : value;
  destination : value
}.

(** ** Generators *)

(** The two unit conversions of the global [SiaAPI]. *)
Inductive helper : Type :=
| hastingsToSiacoins
| siacoinsToHastings.

(** A generator that has run up to its next interaction.  [Call] is
    [yield siadCall(request)]: the middleware resumes the generator
    with the value the promise resolves to, or throws the rejection
    into it.  [Put] is [yield put(a)], after which the generator goes
    on, and [Take] is [yield take(pattern)], which resumes with the
    action that matched.  The remaining constructors are plain calls
    to code outside the file, whose result comes back at once:
    [SiaAPI.hastingsToSiacoins] and [SiaAPI.siacoinsToHastings],
    [parseRawTransactions], [SiaAPI.showError] and [console.error]. *)
Inductive saga (A : Type) : Type :=
| Ret (a : A)
| Throw (e : value)
| Call (request : value) (k : completion value -> saga A)
| Put (a : action) (k : saga A)
| Take (pattern : constant) (k : action -> saga A)
| SiaAPI (h : helper) (arg : value) (k : completion BigNumber.t -> saga A)
| Parse (raw : value) (k : completion value -> saga A)
| ShowError (title : string) (content : value) (k : saga A)
| ConsoleError (message : string) (k : saga A).
Arguments Ret {A} a.
Arguments Throw {A} e.
Arguments Call {A} request k.
Arguments Put {A} a k.
Arguments Take {A} pattern k.
Arguments SiaAPI {A} h arg k.
Arguments Parse {A} raw k.
Arguments ShowError {A} title content k.
Arguments ConsoleError {A} message k.

Fixpoint bind {A B : Type} (s : saga A) (f : A -> saga B) : saga B :=
  match s with
  | Ret a => f a
  | Throw e => Throw e
  | Call request k => Call request (fun r => bind (k r) f)
  | Put a k => Put a (bind k f)
  | Take pattern k => Take pattern (fun a => bind (k a) f)
  | SiaAPI h arg k => SiaAPI h arg (fun r => bind (k r) f)
  | Parse raw k => Parse raw (fun r => bind (k r) f)
  | ShowError title content k => ShowError title content (bind k f)
  | ConsoleError message k => ConsoleError message (bind k f)
  end.

(** [try { body } catch (e) { handler }] *)
Fixpoint try_catch {A : Type} (body : saga A) (handler : value -> saga A) : saga A :=
  match body with
  | Ret a => Ret a
  | Throw e => handler e
  | Call request k => Call request (fun r => try_catch (k r) handler)
  | Put a k => Put a (try_catch k handler)
  | Take pattern k => Take pattern (fun a => try_catch (k a) handler)
  | SiaAPI h arg k => SiaAPI h arg (fun r => try_catch (k r) handler)
  | Parse raw k => Parse raw (fun r => try_catch (k r) handler)
  | ShowError title content k => ShowError title content (try_catch k handler)
  | ConsoleError message k => ConsoleError message (try_catch k handler)
  end.

#[export] Instance Monad_saga : Monad saga :=
  {| ret := @Ret; Monad.bind := @bind |}.

#[export] Instance Exception_saga : MonadExc value saga :=
  {| raise := @Throw; catch := @try_catch |}.

(** An expression whose evaluation may throw. *)
Definition eval {A : Type} (c : completion A) : saga A :=
  match c with
  | Normal a => Ret a
  | Abrupt e => Throw e
  end.

Definition siadCall (request : value) : saga value := Call request eval.
Definition put (a : action) : saga unit := Put a (Ret tt).
Definition take (pattern : constant) : saga action := Take pattern Ret.
Definition convert (h : helper) (arg : value) : saga BigNumber.t := SiaAPI h arg eval.
Definition parseRawTransactions (raw : value) : saga value := Parse raw eval.
Definition showError (title : string) (content : value) : saga unit :=
  ShowError title content (Ret tt).
Definition console_error (message : string) : saga unit :=
  ConsoleError message (Ret tt).

(** ** The sagas of wallet.js *)

(** Send an error notification. *)
Definition sendError (e : value) : saga unit :=
  message <- eval (getField e "message") ;;
  content <- (if negb (isUndefined message) then ret message
              else s <- eval (JS.toString e) ;; ret (VStr s)) ;;
  showError "Sia-UI Wallet Error" content.

(** [console.error(prefix + e.toString())] *)
Definition logError (prefix : string) (e : value) : saga unit :=
  s <- eval (JS.toString e) ;;
  console_error (prefix ++ s).

(** Call /wallet and dispatch the appropriate actions from the
    returned JSON. *)
Definition getLockStatusSaga : saga unit :=
  catch
    (response <- siadCall (VStr "/wallet") ;;
     unlocked <- eval (getField response "unlocked") ;;
     (if negb (truthy unlocked) then put setLocked else put setUnlocked) ;;
     encrypted <- eval (getField response "encrypted") ;;
     (if truthy encrypted then put setEncrypted else put setUnencrypted))
    (fun e => logError "error fetching lock status: " e).

(** Call /wallet/unlock and dispatch setEncrypted and setUnlocked.
    API errors are dispatched as a walletUnlockError action. *)
Definition walletUnlockSaga (action : command) : saga unit :=
  catch
    (siadCall (VObj [("url", VStr "/wallet/unlock");
                     ("method", VStr "POST");
                     ("timeout", VNum 12000000);
                     ("qs", VObj [("encryptionpassword", password action)])]) ;;
     put setEncrypted ;;
     put setUnlocked ;;
     put (handlePasswordChange (VStr "")))
    (fun e =>
       put (handlePasswordChange (VStr "")) ;;
       message <- eval (getField e "message") ;;
       put (walletUnlockError message)).

Definition walletLockSaga : saga unit :=
  catch
    (siadCall (VObj [("url", VStr "/wallet/lock");
                     ("method", VStr "POST")]) ;;
     put setEncrypted ;;
     put setLocked)
    (fun e => sendError e).

(** Call /wallet/init to create a new wallet, show the user the
    newWalletDialog, wait for the wallet to be unlocked, then dismiss
    the dialog. *)
Definition createWalletSaga : saga unit :=
  catch
    (response <- siadCall (VObj [("url", VStr "/wallet/init");
                                 ("method", VStr "POST");
                                 ("qs", VObj [("dictionary", VStr "english")])]) ;;
     seed <- eval (getField response "primaryseed") ;;
     seedConfirm <- eval (getField response "primaryseed") ;;
     put (showNewWalletDialog seed seedConfirm) ;;
     take SET_UNLOCKED ;;
     put dismissNewWalletDialog)
    (fun e => sendError e).

(** Call /wallet and compute the confirmed balance as well as the
    unconfirmed delta. *)
Definition getBalanceSaga : saga unit :=
  catch
    (response <- siadCall (VStr "/wallet") ;;
     c <- eval (getField response "confirmedsiacoinbalance") ;;
     confirmed <- convert hastingsToSiacoins c ;;
     i <- eval (getField response "unconfirmedincomingsiacoins") ;;
     unconfirmedIncoming <- convert hastingsToSiacoins i ;;
     o <- eval (getField response "unconfirmedoutgoingsiacoins") ;;
     unconfirmedOutgoing <- convert hastingsToSiacoins o ;;
     let unconfirmed := BigNumber.minus unconfirmedIncoming unconfirmedOutgoing in
     siafundbalance <- eval (getField response "siafundbalance") ;;
     put (setBalance (VStr (BigNumber.toString (BigNumber.round 2 confirmed)))
                     (VStr (BigNumber.toString (BigNumber.round 2 unconfirmed)))
                     siafundbalance))
    (fun e => logError "error fetching balance: " e).

(** Get all the transactions from /wallet/transactions, parse them,
    and dispatch setTransactions. *)
Definition getTransactionsSaga : saga unit :=
  catch
    (response <- siadCall (VStr "/wallet/transactions?startheight=0&endheight=-1") ;;
     transactions <- parseRawTransactions response ;;
     put (setTransactions transactions))
    (fun e => logError "error fetching transactions: " e).

(** Call /wallet/address, set the receive address, and show the
    receive prompt. *)
Definition getNewReceiveAddressSaga : saga unit :=
  catch
    (response <- siadCall (VStr "/wallet/address") ;;
     address <- eval (getField response "address") ;;
     put (setReceiveAddress address) ;;
     put showReceivePrompt)
    (fun e => sendError e).

Definition missingField (action : command) : bool :=
  isUndefined (currencytype action) || isUndefined (amount action)
  || isUndefined (destination action) || isString (amount action) ""
  || isString (currencytype action) "" || isString (destination action) "".

Definition unknownCurrency (action : command) : bool :=
  negb (isString (currencytype action) "siafunds")
  && negb (isString (currencytype action) "siacoins").

Definition sendCurrencySaga (action : command) : saga unit :=
  catch
    ((if missingField action
      then raise (VObj [("message",
             VStr "You must specify an amount and a destination to send Siacoin!")])
      else ret tt) ;;
     (if unknownCurrency action
      then raise (VObj [("message", VStr "Invalid currency type!")])
      else ret tt) ;;
     sendAmount <- (if isString (currencytype action) "siacoins"
                    then hastings <- convert siacoinsToHastings (amount action) ;;
                         ret (VStr (BigNumber.toString hastings))
                    else ret (amount action)) ;;
     siadCall (VObj [("url", VStr (concat "/wallet/" (currencytype action)));
                     ("method", VStr "POST");
                     ("qs", VObj [("destination", destination action);
                                  ("amount", sendAmount)])]) ;;
     put closeSendPrompt ;;
     put getBalance ;;
     put getTransactions ;;
     put (setSendAmount (VStr "")) ;;
     put (setSendAddress (VStr "")))
    (fun e => sendError e).

(** getSyncState queries the API for the synchronization status of the
    node and sets the wallet's [synced] state. *)
Definition getSyncStateSaga : saga unit :=
  catch
    (response <- siadCall (VStr "/consensus") ;;
     synced <- eval (getField response "synced") ;;
     put (setSyncState synced))
    (fun e => logError "error fetching sync status: " e).

(** The nine watchers: [takeEvery(constant, saga)] starts [saga] on
    each action of that type.  [SET_UNLOCKED] has no watcher here. *)
Definition watch (action : command) : option (saga unit) :=
  match type action with
  | CREATE_NEW_WALLET => Some createWalletSaga
  | GET_LOCK_STATUS => Some getLockStatusSaga
  | UNLOCK_WALLET => Some (walletUnlockSaga action)
  | LOCK_WALLET => Some walletLockSaga
  | GET_BALANCE => Some getBalanceSaga
  | GET_TRANSACTIONS => Some getTransactionsSaga
  | GET_NEW_RECEIVE_ADDRESS => Some getNewReceiveAddressSaga
  | SEND_CURRENCY => Some (sendCurrencySaga action)
  | GET_SYNCSTATE => Some getSyncStateSaga
  | SET_UNLOCKED => None
  end.

(** ** Running a saga *)

(** What lies outside the file: how the daemon answers a request made
    through [siadCall] (the promise resolves or rejects), what the two
    conversions of [SiaAPI] and the transaction parser of [helpers.js]
    return or throw. *)
Record world : Type := {
  siad : value -> completion value;
  conversion : helper -> value -> completion BigNumber.t;
  parser : value -> completion value
}.

(** What a saga did, in order. *)
Inductive event : Type :=
| Requested (request : value)
| Emitted (a : action)
| Observed (a : action)
| Converted (h : helper) (arg : value)
| Parsed (raw : value)
| Notified (title : string) (content : value)
| Logged (message : string).

(** How a run ends: the generator returned, an exception left it, or
    it is suspended in a [take] that nothing has answered. *)
Inductive status : Type :=
| Finished
| Uncaught (e : value)
| Waiting (pattern : constant).

(** A pending [take(pattern)] sees the actions that reach the store,
    oldest first, until one has the awaited type. *)
Fixpoint await (pattern : constant) (store : list action)
  : list event * option (action * list action) :=
  match store with
  | [] => ([], None)
  | a :: rest =>
      if hasType pattern a then ([Observed a], Some (a, rest))
      else let (seen, found) := await pattern rest in (Observed a :: seen, found)
  end.

Definition record (ev : event) (r : list event * status) : list event * status :=
  (ev :: fst r, snd r).

(** [run w s store]: the saga [s] in the world [w], where [store] lists
    the actions other parties dispatch while [s] waits in a [take]. *)
Fixpoint run (w : world) (s : saga unit) (store : list action) : list event * status :=
  match s with
  | Ret _ => ([], Finished)
  | Throw e => ([], Uncaught e)
  | Call request k => record (Requested request) (run w (k (siad w request)) store)
  | Put a k => record (Emitted a) (run w k store)
  | Take pattern k =>
      match await pattern store with
      | (seen, Some (a, rest)) =>
          let r := run w (k a) rest in ((seen ++ fst r)%list, snd r)
      | (seen, None) => (seen, Waiting pattern)
      end
  | SiaAPI h arg k => record (Converted h arg) (run w (k (conversion w h arg)) store)
  | Parse raw k => record (Parsed raw) (run w (k (parser w raw)) store)
  | ShowError title content k => record (Notified title content) (run w k store)
  | ConsoleError message k => record (Logged message) (run w k store)
  end.

Definition trace (w : world) (s : saga unit) (store : list action) : list event :=
  fst (run w s store).

(** The actions a trace dispatched, the requests it sent, the
    notifications it showed. *)
Definition emitted (t : list event) : list action :=
  flat_map (fun ev => match ev with Emitted a => [a] | _ => [] end) t.

Definition requests (t : list event) : list value :=
  flat_map (fun ev => match ev with Requested r => [r] | _ => [] end) t.

Definition notifications (t : list event) : list value :=
  flat_map (fun ev => match ev with Notified _ c => [c] | _ => [] end) t.

Definition conversions (t : list event) : list value :=
  flat_map (fun ev => match ev with Converted _ v => [v] | _ => [] end) t.

(** ** Requests *)

(** The object [walletUnlockSaga] passes to [siadCall]. *)
Definition unlockRequest (password : value) : value :=
  VObj [("url", VStr "/wallet/unlock");
        ("method", VStr "POST");
        ("timeout", VNum 12000000);
        ("qs", VObj [("encryptionpassword", password)])].

(** A timeout of [n] minutes, in the milliseconds of the request
    options. *)
Definition minutes (n : Z) : Z := n * 60 * 1000.

(** The object [createWalletSaga] passes to [siadCall]. *)
Definition createRequest : value :=
  VObj [("url", VStr "/wallet/init");
        ("method", VStr "POST");
        ("qs", VObj [("dictionary", VStr "english")])].

(** ** Sample inputs *)

Definition samplePassword : command :=
  {| type := UNLOCK_WALLET; password := VStr "hunter2";
     currencytype := VUndefined; amount := VUndefined; destination := VUndefined |}.

Definition pollCommand : command :=
  {| type := GET_LOCK_STATUS; password := VUndefined;
     currencytype := VUndefined; amount := VUndefined; destination := VUndefined |}.

Definition sendCommand (currency amount destination : value) : command :=
  {| type := SEND_CURRENCY; password := VUndefined;
     currencytype := currency; amount := amount; destination := destination |}.

(** A response of /wallet as GetBalance reads it, with balances in
    hastings and ten siafunds. *)
Definition balanceResponse (confirmed incoming outgoing : Z) : value :=
  VObj [("confirmedsiacoinbalance", VNum confirmed);
        ("unconfirmedincomingsiacoins", VNum incoming);
        ("unconfirmedoutgoingsiacoins", VNum outgoing);
        ("siafundbalance", VNum 10)].

(** A sample [SiaAPI], which counts [10^24] hastings to the siacoin
    and refuses what is not a number. *)
Definition siaConversion (h : helper) (v : value) : completion BigNumber.t :=
  match v, h with
  | VNum n, hastingsToSiacoins => Normal (BigNumber.Finite n 24)
  | VNum n, siacoinsToHastings => Normal (BigNumber.Finite (n * 10 ^ 24) 0)
  | _, _ => Abrupt (VError "BigNumber Error" "not a number")
  end.

(** A daemon that gives every request the same answer. *)
Definition wallet (response : completion value) : world :=
  {| siad := fun _ => response;
     conversion := siaConversion;
     parser := fun raw => Normal raw |}.

(** ** Outcomes of a run *)

Definition logs (t : list event) : list string :=
  flat_map (fun ev => match ev with Logged line => [line] | _ => [] end) t.

(** The four polls, whose failure is only logged. *)
Definition silent (c : constant) : bool :=
  match c with
  | GET_LOCK_STATUS | GET_BALANCE | GET_TRANSACTIONS | GET_SYNCSTATE => true
  | _ => false
  end.

(** The invariant as the spec words it: actions or a notification,
    not both and not neither. *)
Definition exactlyOneOutcome (t : list event) : Prop :=
  (emitted t <> [] /\ notifications t = [])
  \/ (emitted t = [] /\ notifications t <> []).

(** The four ways a saga of this file ends.  A run that succeeded has
    returned, or waits in CreateWallet's [take]; the others have
    returned. *)
Definition succeeded (r : list event * status) : Prop :=
  emitted (fst r) <> []
  /\ (forall message, ~ In (walletUnlockError message) (emitted (fst r)))
  /\ notifications (fst r) = []
  /\ logs (fst r) = []
  /\ (snd r = Finished \/ snd r = Waiting SET_UNLOCKED).

Definition notified (r : list event * status) : Prop :=
  emitted (fst r) = []
  /\ (exists content, notifications (fst r) = [content])
  /\ logs (fst r) = []
  /\ snd r = Finished.

Definition unlockFailed (r : list event * status) : Prop :=
  (exists message,
      emitted (fst r) = [handlePasswordChange (VStr ""); walletUnlockError message])
  /\ notifications (fst r) = []
  /\ logs (fst r) = []
  /\ snd r = Finished.

Definition onlyLogged (r : list event * status) : Prop :=
  emitted (fst r) = []
  /\ notifications (fst r) = []
  /\ (exists line, logs (fst r) = [line])
  /\ snd r = Finished.

(** Whatever the outside world throws is a value with properties:
    an error object, a string, not [undefined] or [null]. *)
Definition throwsValues (w : world) : Prop :=
  (forall request e, siad w request = Abrupt e -> nullish e = false)
  /\ (forall h v e, conversion w h v = Abrupt e -> nullish e = false)
  /\ (forall raw e, parser w raw = Abrupt e -> nullish e = false).

(** ** The other requests *)

(** The object [walletLockSaga] passes to [siadCall]. *)
Definition lockRequest : value :=
  VObj [("url", VStr "/wallet/lock");
        ("method", VStr "POST")].

(** The object [sendCurrencySaga] passes to [siadCall], once the
    currency type is known to be the string [currency]. *)
Definition sendRequest (currency : string) (destination sendAmount : value) : value :=
  VObj [("url", VStr ("/wallet/" ++ currency));
        ("method", VStr "POST");
        ("qs", VObj [("destination", destination);
                     ("amount", sendAmount)])].

(** ** Shapes of a trace *)

(** The trace starts with the request and holds no other. *)
Definition startsWithRequest (t : list event) : Prop :=
  exists r rest, t = Requested r :: rest /\ requests rest = [].

(** Nothing the user or the store could have seen is in the trace. *)
Definition quiet (t : list event) : Prop :=
  emitted t = [] /\ notifications t = [] /\ logs t = [].

(** The saga runs the same with and without the actions of others,
    and does not end suspended. *)
Definition ignoresStore (w : world) (store : list action) (s : saga unit) : Prop :=
  run w s store = run w s []
  /\ forall pattern, snd (run w s store) <> Waiting pattern.

(** The argument [getTransactionsSaga] passes to [siadCall]. *)
Definition transactionsRequest : value :=
  VStr "/wallet/transactions?startheight=0&endheight=-1".

Definition parses (t : list event) : list value :=
  flat_map (fun ev => match ev with Parsed raw => [raw] | _ => [] end) t.

(** The request was rejected, or answered with [undefined] or [null],
    which has no properties to read. *)
Definition siad_failed (w : world) (request : value) : Prop :=
  (exists e, siad w request = Abrupt e)
  \/ (exists response, siad w request = Normal response /\ nullish response = true).

(** The sagas that read a property of the response. *)
Definition readsResponse (c : constant) : bool :=
  match c with
  | CREATE_NEW_WALLET | GET_LOCK_STATUS | GET_BALANCE
  | GET_NEW_RECEIVE_ADDRESS | GET_SYNCSTATE => true
  | _ => false
  end.

(** The request of each poll and the words its catch block puts
    before the error. *)
Definition pollOf (c : constant) : option (value * string) :=
  match c with
  | GET_LOCK_STATUS => Some (VStr "/wallet", "error fetching lock status: ")
  | GET_BALANCE => Some (VStr "/wallet", "error fetching balance: ")
  | GET_TRANSACTIONS => Some (transactionsRequest, "error fetching transactions: ")
  | GET_SYNCSTATE => Some (VStr "/consensus", "error fetching sync status: ")
  | _ => None
  end.

(** * Properties *)

(** ** Concrete runs *)

Example lockStatus_locked_encrypted :
  run (wallet (Normal (VObj [("unlocked", VBool false); ("encrypted", VBool true)])))
      getLockStatusSaga []
  = ([Requested (VStr "/wallet"); Emitted setLocked; Emitted setEncrypted], Finished).
Proof. reflexivity. Qed.

Example lockStatus_failure_is_logged :
  run (wallet (Abrupt (VError "Error" "socket hang up"))) getLockStatusSaga []
  = ([Requested (VStr "/wallet");
      Logged "error fetching lock status: Error: socket hang up"], Finished).
Proof. reflexivity. Qed.

(** ** GetLockStatus *)

(** C5.  When the call to /wallet resolves to an object, GetLockStatus
    dispatches exactly two actions: first one of setLocked and
    setUnlocked, then one of setEncrypted and setUnencrypted.
    setLocked is the one dispatched exactly when [unlocked] is false
    (in JavaScript's sense of [!response.unlocked]), setEncrypted
    exactly when [encrypted] is true, and the other member of each
    pair is then absent. *)
Theorem getLockStatus_one_of_each_pair :
  forall (w : world) (fields : list (string * value)) (store : list action),
    siad w (VStr "/wallet") = Normal (VObj fields) ->
    let unlocked := truthy (lookup "unlocked" fields) in
    let encrypted := truthy (lookup "encrypted" fields) in
    let out := emitted (trace w getLockStatusSaga store) in
    out = [ if unlocked then setUnlocked else setLocked;
            if encrypted then setEncrypted else setUnencrypted ]
    /\ (In setLocked out <-> unlocked = false)
    /\ (In setUnlocked out <-> unlocked = true)
    /\ (In setEncrypted out <-> encrypted = true)
    /\ (In setUnencrypted out <-> encrypted = false).
Proof.
  intros w fields store Hresp. cbv zeta.
  unfold trace. simpl. rewrite Hresp. simpl.
  destruct (truthy (lookup "unlocked" fields));
    destruct (truthy (lookup "encrypted" fields)); simpl;
    repeat split; intros; try reflexivity;
    repeat match goal with
           | H : _ \/ _ |- _ => destruct H
           | H : False |- _ => destruct H
           | H : _ = _ |- _ => discriminate H
           end; auto.
Qed.

Lemma getLockStatus_one_of_each_pair_witness :
  let w := wallet (Normal (VObj [("unlocked", VBool false); ("encrypted", VBool true)])) in
  let out := emitted (trace w getLockStatusSaga []) in
  out = [setLocked; setEncrypted]
  /\ (In setLocked out <-> false = false)
  /\ (In setUnlocked out <-> false = true)
  /\ (In setEncrypted out <-> true = true)
  /\ (In setUnencrypted out <-> true = false).
Proof.
  exact (getLockStatus_one_of_each_pair
           (wallet (Normal (VObj [("unlocked", VBool false); ("encrypted", VBool true)])))
           [("unlocked", VBool false); ("encrypted", VBool true)] [] eq_refl).
Defined.

(** ** UnlockWallet *)

(** C2.  UnlockWallet sends one request, a POST to /wallet/unlock that
    carries the password as the query parameter [encryptionpassword].
    Its [timeout] is 12000000 milliseconds, which is 200 minutes and
    not the 20 minutes that the comment next to it announces. *)
Theorem walletUnlock_request_timeout :
  forall (w : world) (cmd : command) (store : list action),
    let request := unlockRequest (password cmd) in
    requests (trace w (walletUnlockSaga cmd) store) = [request]
    /\ getField request "url" = Normal (VStr "/wallet/unlock")
    /\ getField request "method" = Normal (VStr "POST")
    /\ getField request "qs" = Normal (VObj [("encryptionpassword", password cmd)])
    /\ getField request "timeout" = Normal (VNum (minutes 200))
    /\ minutes 200 <> minutes 20.
Proof.
  intros w cmd store. cbv zeta.
  split; [| repeat split; discriminate].
  unfold trace. simpl. fold (unlockRequest (password cmd)).
  destruct (siad w (unlockRequest (password cmd))) as [response | e]; simpl.
  - reflexivity.
  - destruct (getField e "message"); reflexivity.
Qed.



(** Outside that domain: a promise rejected with [undefined] makes
    [e.message] throw inside the catch block, after the field is
    cleared. *)
Example walletUnlock_rejected_with_undefined :
  run (wallet (Abrupt VUndefined)) (walletUnlockSaga samplePassword) []
  = ([Requested (unlockRequest (VStr "hunter2"));
      Emitted (handlePasswordChange (VStr ""))],
     Uncaught (TypeError "Cannot read property 'message' of undefined")).
Proof. reflexivity. Qed.



(** ** BigNumber: rounding and printing *)

Lemma lastChar_snoc (s : string) (c : ascii) :
  lastChar (s ++ String c EmptyString) = Some c.
Proof.
  induction s as [| c' s IH]; [reflexivity |].
  simpl. rewrite IH. destruct s; reflexivity.
Qed.

Lemma lastChar_app (s1 s2 : string) (c : ascii) :
  lastChar s2 = Some c -> lastChar (s1 ++ s2) = Some c.
Proof.
  intros H. induction s1 as [| c' s1 IH]; [exact H |].
  simpl. destruct (s1 ++ s2)%string; [discriminate IH | exact IH].
Qed.

Lemma hasChar_app (c : ascii) (s1 s2 : string) :
  hasChar c (s1 ++ s2) = hasChar c s1 || hasChar c s2.
Proof.
  induction s1 as [| c' s1 IH]; [reflexivity |].
  simpl. rewrite IH. now rewrite orb_assoc.
Qed.

Lemma digits_have_no_point (d : Decimal.uint) :
  hasChar "." (NilEmpty.string_of_uint d) = false.
Proof. induction d; simpl; auto. Qed.

Lemma integer_has_no_point (n : Z) : hasChar "." (BigNumber.integer n) = false.
Proof.
  unfold BigNumber.integer, NilZero.string_of_uint.
  destruct (N.to_uint (Z.to_N n)); try reflexivity;
    apply digits_have_no_point.
Qed.

Lemma digit_zero (d : Z) :
  (0 <= d < 10)%Z -> BigNumber.digit d = "0"%char -> d = 0%Z.
Proof.
  intros Hd H.
  assert (Hcases : (d = 0 \/ d = 1 \/ d = 2 \/ d = 3 \/ d = 4 \/ d = 5
                    \/ d = 6 \/ d = 7 \/ d = 8 \/ d = 9)%Z) by lia.
  repeat (destruct Hcases as [-> | Hcases]; [try reflexivity; discriminate H |]).
  subst d. discriminate H.
Qed.

Lemma normalize_keeps_no_trailing_zero (dp : nat) :
  forall n n' k, BigNumber.normalize n dp = (n', k) ->
                 k = O \/ (n' mod 10 <> 0)%Z.
Proof.
  induction dp as [| dp IH]; intros n n' k H; simpl in H.
  - inversion H. now left.
  - destruct (n mod 10 =? 0)%Z eqn:E.
    + eapply IH; eassumption.
    + inversion H; subst. right. now apply Z.eqb_neq.
Qed.

(** What [toString] prints never ends in a zero after the point. *)
Lemma toString_has_no_trailing_zero (x : BigNumber.t) :
  hasChar "." (BigNumber.toString x) = true ->
  lastChar (BigNumber.toString x) <> Some "0"%char.
Proof.
  destruct x as [| [|] | m dp]; simpl; try discriminate.
  destruct (BigNumber.normalize (Z.abs m) dp) as [n k] eqn:Hn.
  apply normalize_keeps_no_trailing_zero in Hn.
  destruct k as [| k].
  - rewrite hasChar_app, integer_has_no_point.
    destruct (m <? 0)%Z; discriminate.
  - intros _. destruct Hn as [Hk | Hn]; [discriminate Hk |].
    cbn [BigNumber.fraction].
    rewrite (lastChar_app _ _ (BigNumber.digit (n mod 10)))
      by (apply lastChar_app; apply (lastChar_snoc (String "." _))).
    intros H. injection H as H.
    apply Hn, digit_zero; [apply Z.mod_pos_bound; lia | exact H].
Qed.

Lemma toString_is_not_padded_2500 (x : BigNumber.t) :
  BigNumber.toString x <> "2500.00".
Proof.
  intros H. apply (toString_has_no_trailing_zero x); rewrite H; reflexivity.
Qed.

Lemma round_keeps_short_fractions (places : nat) (m : Z) (dp : nat) :
  (dp <= places)%nat ->
  BigNumber.round places (BigNumber.Finite m dp) = BigNumber.Finite m dp.
Proof.
  intros H. unfold BigNumber.round.
  destruct (Nat.leb_spec dp places); [reflexivity | lia].
Qed.

(** Rounding a longer fraction gives the nearest value with [places]
    decimal places. *)
Lemma round_is_nearest (places : nat) (m : Z) (dp : nat) :
  (places < dp)%nat ->
  exists q,
    BigNumber.round places (BigNumber.Finite m dp) = BigNumber.Finite q places
    /\ (2 * Z.abs (q * BigNumber.pow10 (dp - places) - m)
        <= BigNumber.pow10 (dp - places))%Z.
Proof.
  intros H. unfold BigNumber.round.
  destruct (Nat.leb_spec dp places); [lia |].
  set (s := BigNumber.pow10 (dp - places)).
  assert (Hs : (0 < s)%Z) by (apply Z.pow_pos_nonneg; lia).
  eexists. split; [reflexivity |].
  pose proof (Z.div_mod (Z.abs m) s ltac:(lia)) as Hdm.
  pose proof (Z.mod_pos_bound (Z.abs m) s Hs) as Hr.
  destruct (Z.leb_spec s (2 * (Z.abs m mod s)));
    destruct (Z.sgn_spec m) as [[Hm ->] | [[Hm ->] | [Hm ->]]]; nia.
Qed.

(** ** GetBalance *)

Example getBalance_spec_example :
  run (wallet (Normal (balanceResponse 2500000000000000000000000 0 0))) getBalanceSaga []
  = ([Requested (VStr "/wallet");
      Converted hastingsToSiacoins (VNum 2500000000000000000000000);
      Converted hastingsToSiacoins (VNum 0);
      Converted hastingsToSiacoins (VNum 0);
      Emitted (setBalance (VStr "2.5") (VStr "0") (VNum 10))], Finished).
Proof. vm_compute. reflexivity. Qed.

Example getBalance_rounds_half_up :
  emitted (trace (wallet (Normal (balanceResponse 1234565000000000000000000 5000000000000000000000 0)))
                 getBalanceSaga [])
  = [setBalance (VStr "1.23") (VStr "0.01") (VNum 10)].
Proof. vm_compute. reflexivity. Qed.

(** C4, as the code has it.  When /wallet resolves to an object and
    the three conversions return, GetBalance dispatches one setBalance:
    the confirmed balance and the difference incoming minus outgoing,
    each rounded to two decimal places and printed by [toString], and
    [siafundbalance] as it came.  The printed strings carry no padding:
    after a point they never end in a zero. *)
Theorem getBalance_rounds_and_prints :
  forall (w : world) (fields : list (string * value)) (store : list action)
         (confirmed incoming outgoing : BigNumber.t),
    siad w (VStr "/wallet") = Normal (VObj fields) ->
    conversion w hastingsToSiacoins (lookup "confirmedsiacoinbalance" fields)
      = Normal confirmed ->
    conversion w hastingsToSiacoins (lookup "unconfirmedincomingsiacoins" fields)
      = Normal incoming ->
    conversion w hastingsToSiacoins (lookup "unconfirmedoutgoingsiacoins" fields)
      = Normal outgoing ->
    let c := BigNumber.toString (BigNumber.round 2 confirmed) in
    let u := BigNumber.toString
               (BigNumber.round 2 (BigNumber.minus incoming outgoing)) in
    emitted (trace w getBalanceSaga store)
      = [setBalance (VStr c) (VStr u) (lookup "siafundbalance" fields)]
    /\ (hasChar "." c = true -> lastChar c <> Some "0"%char)
    /\ (hasChar "." u = true -> lastChar u <> Some "0"%char).
Proof.
  intros w fields store confirmed incoming outgoing Hresp Hc Hi Ho. cbv zeta.
  split; [| split; apply toString_has_no_trailing_zero].
  unfold trace. simpl. rewrite Hresp. simpl.
  rewrite Hc. simpl. rewrite Hi. simpl. rewrite Ho. reflexivity.
Qed.

Lemma getBalance_rounds_and_prints_witness :
  let w := wallet (Normal (balanceResponse 2500000000000000000000000000 0 0)) in
  emitted (trace w getBalanceSaga [])
    = [setBalance (VStr "2500") (VStr "0") (VNum 10)]
  /\ (hasChar "." "2500" = true -> lastChar "2500" <> Some "0"%char)
  /\ (hasChar "." "0" = true -> lastChar "0" <> Some "0"%char).
Proof.
  exact (getBalance_rounds_and_prints
           (wallet (Normal (balanceResponse 2500000000000000000000000000 0 0)))
           [("confirmedsiacoinbalance", VNum 2500000000000000000000000000);
            ("unconfirmedincomingsiacoins", VNum 0);
            ("unconfirmedoutgoingsiacoins", VNum 0);
            ("siafundbalance", VNum 10)]
           []
           (BigNumber.Finite 2500000000000000000000000000 24)
           (BigNumber.Finite 0 24) (BigNumber.Finite 0 24)
           eq_refl eq_refl eq_refl eq_refl).
Defined.

(** C4, as the spec states its example: no daemon answer and no
    conversion make GetBalance dispatch SetBalance("2500.00", "0.00",
    10) for the response of the example. *)
Lemma getBalance_never_pads_with_zeros :
  ~ exists (w : world) (store : list action),
      siad w (VStr "/wallet")
        = Normal (balanceResponse 2500000000000000000000000 0 0)
      /\ emitted (trace w getBalanceSaga store)
         = [setBalance (VStr "2500.00") (VStr "0.00") (VNum 10)].
Proof.
  intros (w & store & Hresp & H).
  unfold trace in H. simpl in H. rewrite Hresp in H. simpl in H.
  repeat match type of H with
         | context [conversion w ?h ?v] =>
             destruct (conversion w h v) as [? | ?]; simpl in H
         | context [logError _ ?e] =>
             unfold logError in H; simpl in H;
             destruct (JS.toString e) as [? | ?]; simpl in H
         end;
    try discriminate H.
  injection H as H _. exact (toString_is_not_padded_2500 _ H).
Qed.

(** ** SendCurrency *)

(** The cases of [sendError e], once [e] is known to come from
    outside: its [message], whether that is undefined, its string
    form. *)
Ltac sendError_cases e :=
  unfold sendError; simpl;
  let m := fresh "message" in
  destruct (getField e "message") as [m | ?]; simpl;
  [ destruct (isUndefined m); simpl;
    [ destruct (JS.toString e) as [? | ?]; simpl | ]
  | ].

(** [H : In ev [ev1; ...; evn]]: keep the members that can be [ev]. *)
Ltac membership H :=
  simpl in H;
  repeat match type of H with
         | _ \/ _ => destruct H as [H | H]
         | False => destruct H
         | _ = _ => discriminate H
         end.

Ltac logError_cases e :=
  unfold logError; simpl;
  destruct (JS.toString e) as [? | ?]; simpl.

Lemma isString_eq (v : value) (s : string) : isString v s = true <-> v = VStr s.
Proof.
  destruct v; simpl; split; try discriminate; intros H.
  - apply String.eqb_eq in H. now subst.
  - injection H as ->. apply String.eqb_refl.
Qed.

Lemma isUndefined_eq (v : value) : isUndefined v = true <-> v = VUndefined.
Proof. destruct v; simpl; split; try discriminate; reflexivity. Qed.

Lemma missingField_spec (cmd : command) :
  missingField cmd = true <->
  In (amount cmd) [VUndefined; VStr ""]
  \/ In (destination cmd) [VUndefined; VStr ""]
  \/ In (currencytype cmd) [VUndefined; VStr ""].
Proof.
  unfold missingField. rewrite !orb_true_iff, !isUndefined_eq, !isString_eq.
  simpl. intuition congruence.
Qed.

Lemma unknownCurrency_spec (cmd : command) :
  unknownCurrency cmd = true <->
  currencytype cmd <> VStr "siacoins" /\ currencytype cmd <> VStr "siafunds".
Proof.
  unfold unknownCurrency.
  rewrite andb_true_iff, !negb_true_iff, <- !not_true_iff_false, !isString_eq.
  tauto.
Qed.

Example send_bogus_currency :
  run (wallet (Normal VNull)) (sendCurrencySaga (sendCommand (VStr "bogus") (VStr "1") (VStr "addr"))) []
  = ([Notified "Sia-UI Wallet Error" (VStr "Invalid currency type!")], Finished).
Proof. reflexivity. Qed.

Example send_empty_amount :
  run (wallet (Normal VNull)) (sendCurrencySaga (sendCommand (VStr "bogus") (VStr "") (VStr "addr"))) []
  = ([Notified "Sia-UI Wallet Error"
        (VStr "You must specify an amount and a destination to send Siacoin!")], Finished).
Proof. reflexivity. Qed.

Example send_siacoins :
  run (wallet (Normal VNull)) (sendCurrencySaga (sendCommand (VStr "siacoins") (VNum 3) (VStr "addr"))) []
  = ([Converted siacoinsToHastings (VNum 3);
      Requested (VObj [("url", VStr "/wallet/siacoins"); ("method", VStr "POST");
                       ("qs", VObj [("destination", VStr "addr");
                                    ("amount", VStr "3000000000000000000000000")])]);
      Emitted closeSendPrompt; Emitted getBalance; Emitted getTransactions;
      Emitted (setSendAmount (VStr "")); Emitted (setSendAddress (VStr ""))], Finished).
Proof. vm_compute. reflexivity. Qed.

(** C3.  A SendCurrency whose amount, destination or currency type is
    undefined or the empty string, or whose currency type is neither
    "siacoins" nor "siafunds", does one thing only: it shows an error
    notification whose text names the fault.  No conversion is called
    and no request is sent. *)
Theorem sendCurrency_validates_first :
  forall (w : world) (cmd : command) (store : list action),
    In (amount cmd) [VUndefined; VStr ""]
    \/ In (destination cmd) [VUndefined; VStr ""]
    \/ In (currencytype cmd) [VUndefined; VStr ""]
    \/ (currencytype cmd <> VStr "siacoins" /\ currencytype cmd <> VStr "siafunds") ->
    exists message,
      run w (sendCurrencySaga cmd) store
        = ([Notified "Sia-UI Wallet Error" (VStr message)], Finished)
      /\ (message = "You must specify an amount and a destination to send Siacoin!"
          \/ message = "Invalid currency type!")
      /\ requests (trace w (sendCurrencySaga cmd) store) = []
      /\ conversions (trace w (sendCurrencySaga cmd) store) = [].
Proof.
  intros w cmd store H.
  unfold trace, sendCurrencySaga.
  destruct (missingField cmd) eqn:Hmissing.
  - eexists. simpl. repeat split. now left.
  - assert (Hunknown : unknownCurrency cmd = true).
    { apply unknownCurrency_spec.
      destruct H as [H | [H | [H | H]]]; [| | | exact H];
        exfalso; apply not_true_iff_false in Hmissing; apply Hmissing;
        apply missingField_spec; tauto. }
    rewrite Hunknown. eexists. simpl. repeat split. now right.
Qed.

Lemma sendCurrency_validates_first_witness :
  exists message,
    run (wallet (Normal VNull))
        (sendCurrencySaga (sendCommand (VStr "bogus") (VStr "1") (VStr "addr"))) []
      = ([Notified "Sia-UI Wallet Error" (VStr message)], Finished)
    /\ (message = "You must specify an amount and a destination to send Siacoin!"
        \/ message = "Invalid currency type!")
    /\ requests (trace (wallet (Normal VNull))
                   (sendCurrencySaga (sendCommand (VStr "bogus") (VStr "1") (VStr "addr"))) []) = []
    /\ conversions (trace (wallet (Normal VNull))
                   (sendCurrencySaga (sendCommand (VStr "bogus") (VStr "1") (VStr "addr"))) []) = [].
Proof.
  apply (sendCurrency_validates_first (wallet (Normal VNull))
           (sendCommand (VStr "bogus") (VStr "1") (VStr "addr")) []).
  right; right; right. simpl. split; discriminate.
Defined.

(** C6.  Whatever request SendCurrency sends: if the daemon accepts
    it, the saga dispatches closeSendPrompt, getBalance,
    getTransactions, setSendAmount('') and setSendAddress(''), of which
    exactly one action asks for the balance and exactly one for the
    transactions, and it shows no notification; if the daemon rejects
    the request, the saga dispatches nothing at all, so neither field
    is cleared. *)
Theorem sendCurrency_clears_fields_on_success_only :
  forall (w : world) (cmd : command) (store : list action) (request : value),
    In (Requested request) (trace w (sendCurrencySaga cmd) store) ->
    let out := emitted (trace w (sendCurrencySaga cmd) store) in
    match siad w request with
    | Normal _ =>
        out = [closeSendPrompt; getBalance; getTransactions;
               setSendAmount (VStr ""); setSendAddress (VStr "")]
        /\ List.length (filter (hasType GET_BALANCE) out) = 1%nat
        /\ List.length (filter (hasType GET_TRANSACTIONS) out) = 1%nat
        /\ notifications (trace w (sendCurrencySaga cmd) store) = []
    | Abrupt _ => out = []
    end.
Proof.
  intros w cmd store request. cbv zeta.
  unfold trace, sendCurrencySaga.
  destruct (missingField cmd); [simpl; intuition discriminate |].
  destruct (unknownCurrency cmd); [simpl; intuition discriminate |].
  destruct (isString (currencytype cmd) "siacoins"); simpl.
  - destruct (conversion w siacoinsToHastings (amount cmd)) as [hastings | e]; simpl.
    + match goal with |- context [siad w ?r] => set (sent := r) end.
      destruct (siad w sent) as [response | e] eqn:Hsent; simpl.
      * intros H; membership H. injection H as <-. rewrite Hsent. repeat split.
      * sendError_cases e; intros H; membership H;
          injection H as <-; rewrite Hsent; reflexivity.
    + sendError_cases e; intros H; membership H.
  - match goal with |- context [siad w ?r] => set (sent := r) end.
    destruct (siad w sent) as [response | e] eqn:Hsent; simpl.
    + intros H; membership H. injection H as <-. rewrite Hsent. repeat split.
    + sendError_cases e; intros H; membership H;
        injection H as <-; rewrite Hsent; reflexivity.
Qed.

Lemma sendCurrency_clears_fields_on_success_only_witness :
  let cmd := sendCommand (VStr "siafunds") (VStr "2") (VStr "addr") in
  (emitted (trace (wallet (Normal VNull)) (sendCurrencySaga cmd) [])
     = [closeSendPrompt; getBalance; getTransactions;
        setSendAmount (VStr ""); setSendAddress (VStr "")]
   /\ List.length (filter (hasType GET_BALANCE)
                 (emitted (trace (wallet (Normal VNull)) (sendCurrencySaga cmd) []))) = 1%nat
   /\ List.length (filter (hasType GET_TRANSACTIONS)
                 (emitted (trace (wallet (Normal VNull)) (sendCurrencySaga cmd) []))) = 1%nat
   /\ notifications (trace (wallet (Normal VNull)) (sendCurrencySaga cmd) []) = [])
  /\ emitted (trace (wallet (Abrupt (VError "Error" "insufficient funds")))
                    (sendCurrencySaga cmd) []) = [].
Proof.
  split.
  - refine (sendCurrency_clears_fields_on_success_only
              (wallet (Normal VNull))
              (sendCommand (VStr "siafunds") (VStr "2") (VStr "addr")) []
              (VObj [("url", VStr "/wallet/siafunds"); ("method", VStr "POST");
                     ("qs", VObj [("destination", VStr "addr"); ("amount", VStr "2")])])
              _).
    simpl. left. reflexivity.
  - refine (sendCurrency_clears_fields_on_success_only
              (wallet (Abrupt (VError "Error" "insufficient funds")))
              (sendCommand (VStr "siafunds") (VStr "2") (VStr "addr")) []
              (VObj [("url", VStr "/wallet/siafunds"); ("method", VStr "POST");
                     ("qs", VObj [("destination", VStr "addr"); ("amount", VStr "2")])])
              _).
    simpl. left. reflexivity.
Defined.

(** ** CreateWallet *)

Lemma hasType_SET_UNLOCKED (a : action) :
  hasType SET_UNLOCKED a = true <-> a = setUnlocked.
Proof. destruct a; simpl; split; intros H; try discriminate H; reflexivity. Qed.

(** A [take] either finds the first action of its type, having seen
    everything before it, or sees the whole store and keeps waiting. *)
Lemma await_cases (pattern : constant) (store : list action) :
  (exists before a after,
      store = before ++ a :: after
      /\ (forall b, In b before -> hasType pattern b = false)
      /\ hasType pattern a = true
      /\ await pattern store = (map Observed before ++ [Observed a], Some (a, after)))%list
  \/ ((forall b, In b store -> hasType pattern b = false)
      /\ await pattern store = (map Observed store, None)).
Proof.
  induction store as [| a store IH]; simpl.
  - right. split; [intros b [] | reflexivity].
  - destruct (hasType pattern a) eqn:Ha.
    + left. exists [], a, store.
      split; [reflexivity |]. split; [intros b [] |]. split; [exact Ha | reflexivity].
    + destruct IH as [(before & a' & after & -> & Hb & Ha' & ->) | [Hnone ->]].
      * left. exists (a :: before), a', after.
        split; [reflexivity |]. split; [| split; [exact Ha' | reflexivity]].
        intros b [<- | Hin]; auto.
      * right. split; [| reflexivity]. intros b [<- | Hin]; auto.
Qed.

Lemma await_first (pattern : constant) (before : list action) (a : action)
      (after : list action) :
  (forall b, In b before -> hasType pattern b = false) ->
  hasType pattern a = true ->
  await pattern (before ++ a :: after)%list
    = (map Observed before ++ [Observed a], Some (a, after))%list.
Proof.
  intros Hb Ha. induction before as [| b before IH]; simpl.
  - now rewrite Ha.
  - rewrite (Hb b (or_introl eq_refl)), IH; [reflexivity |].
    intros b' Hin. apply Hb. now right.
Qed.

(** The run of CreateWallet once /wallet/init has answered with a
    seed. *)
Lemma createWallet_run (w : world) (store : list action) (response seed : value) :
  siad w createRequest = Normal response ->
  getField response "primaryseed" = Normal seed ->
  run w createWalletSaga store
    = match await SET_UNLOCKED store with
      | (seen, Some _) =>
          (Requested createRequest :: Emitted (showNewWalletDialog seed seed)
             :: seen ++ [Emitted dismissNewWalletDialog], Finished)%list
      | (seen, None) =>
          (Requested createRequest :: Emitted (showNewWalletDialog seed seed)
             :: seen, Waiting SET_UNLOCKED)
      end.
Proof.
  intros Hresp Hseed. simpl. fold createRequest. rewrite Hresp. simpl.
  rewrite Hseed. simpl.
  destruct (await SET_UNLOCKED store) as [seen [[a rest] |]]; reflexivity.
Qed.

(** Without a seed CreateWallet dispatches nothing. *)
Lemma createWallet_failure (w : world) (store : list action) :
  (forall response seed, siad w createRequest = Normal response ->
                         getField response "primaryseed" <> Normal seed) ->
  emitted (trace w createWalletSaga store) = [].
Proof.
  intros Hno. unfold trace. simpl. fold createRequest.
  destruct (siad w createRequest) as [response | e] eqn:Hresp; simpl.
  - destruct (getField response "primaryseed") as [seed | e] eqn:Hseed; simpl.
    + destruct (Hno response seed eq_refl Hseed).
    + sendError_cases e; reflexivity.
  - sendError_cases e; reflexivity.
Qed.

Lemma emitted_app (t1 t2 : list event) :
  emitted (t1 ++ t2)%list = (emitted t1 ++ emitted t2)%list.
Proof. apply flat_map_app. Qed.

Lemma emitted_observed (l : list action) : emitted (map Observed l) = [].
Proof. induction l; simpl; auto. Qed.

Lemma In_emitted (a : action) (t : list event) :
  In (Emitted a) t <-> In a (emitted t).
Proof.
  unfold emitted. rewrite in_flat_map. split.
  - intros H. exists (Emitted a). split; [exact H | now left].
  - intros (ev & Hin & Ha). destruct ev; simpl in Ha; try tauto.
    destruct Ha as [-> | []]. exact Hin.
Qed.

(** What GetLockStatus dispatches first for an object response. *)
Lemma getLockStatus_emits (w : world) (fields : list (string * value))
      (store : list action) :
  siad w (VStr "/wallet") = Normal (VObj fields) ->
  exists rest,
    emitted (trace w getLockStatusSaga store)
      = (if truthy (lookup "unlocked" fields) then setUnlocked else setLocked) :: rest.
Proof.
  intros Hresp. unfold trace. simpl. rewrite Hresp. simpl.
  destruct (truthy (lookup "unlocked" fields)); simpl; eauto.
Qed.

Lemma extends_first_occurrence {A : Type} (x : A) (l1 l2 pre post : list A) :
  ~ In x l1 ->
  (l1 ++ x :: l2 = pre ++ x :: post)%list ->
  exists mid, (pre = l1 ++ mid)%list.
Proof.
  revert pre. induction l1 as [| y l1 IH]; intros pre Hx H.
  - exists pre. reflexivity.
  - destruct pre as [| z pre]; simpl in H; injection H as Hhead Htail.
    + destruct Hx. left. now symmetry.
    + destruct (IH pre (fun Hin => Hx (or_intror Hin)) Htail) as [mid ->].
      exists mid. now subst.
Qed.

(** C8.  In every run of CreateWallet, a dismissNewWalletDialog is
    preceded by showNewWalletDialog and, between the two, by a
    setUnlocked seen in the store; so none is dispatched while no
    setUnlocked has arrived.  Every showNewWalletDialog carries the
    [primaryseed] of the response in both of its arguments. *)
Theorem createWallet_dismisses_only_after_unlock :
  forall (w : world) (store : list action),
    let t := trace w createWalletSaga store in
    (forall before after,
        t = (before ++ Emitted dismissNewWalletDialog :: after)%list ->
        exists early seed later,
          before = (early ++ Emitted (showNewWalletDialog seed seed) :: later)%list
          /\ In (Observed setUnlocked) later)
    /\ (In (Emitted dismissNewWalletDialog) t -> In setUnlocked store)
    /\ (forall seed seedConfirm,
           In (Emitted (showNewWalletDialog seed seedConfirm)) t ->
           seedConfirm = seed
           /\ exists response,
               siad w createRequest = Normal response
               /\ getField response "primaryseed" = Normal seed).
Proof.
  intros w store t.
  assert (Hfailure : emitted t = [] ->
            forall a, In (Emitted a) t -> False).
  { intros Hnone a Hin. apply In_emitted in Hin. rewrite Hnone in Hin. exact Hin. }
  destruct (siad w createRequest) as [response | e] eqn:Hresp;
    [destruct (getField response "primaryseed") as [seed | e] eqn:Hseed |].
  - subst t. unfold trace. rewrite (createWallet_run w store response seed Hresp Hseed).
    destruct (await_cases SET_UNLOCKED store)
      as [(seen & a & rest & -> & Hseen & Ha & ->) | [Hnone ->]]; simpl.
    + apply hasType_SET_UNLOCKED in Ha. subst a.
      split; [| split].
      * intros before after H.
        change (Requested createRequest :: Emitted (showNewWalletDialog seed seed)
                  :: (map Observed seen ++ [Observed setUnlocked])
                  ++ [Emitted dismissNewWalletDialog])%list
          with ((Requested createRequest :: Emitted (showNewWalletDialog seed seed)
                   :: map Observed seen ++ [Observed setUnlocked])
                  ++ Emitted dismissNewWalletDialog :: [])%list in H.
        apply extends_first_occurrence in H.
        -- destruct H as [mid ->].
           exists [Requested createRequest], seed,
             ((map Observed seen ++ [Observed setUnlocked]) ++ mid)%list.
           split; [reflexivity |].
           apply in_or_app. left. apply in_or_app. right. now left.
        -- intros [H' | [H' | H']]; try discriminate H'.
           apply in_app_or in H'. destruct H' as [H' | H'].
           ++ apply in_map_iff in H'. destruct H' as (b & Hb & _). discriminate Hb.
           ++ membership H'.
      * intros _. apply in_or_app. right. now left.
      * intros s1 s2 [H | [H | H]]; try discriminate H.
        -- injection H as <- <-. eauto.
        -- apply in_app_or in H. destruct H as [H | H]; [| membership H].
           apply in_app_or in H. destruct H as [H | H]; [| membership H].
           apply in_map_iff in H. destruct H as (b & Hb & _). discriminate Hb.
    + assert (Hobs : forall a, ~ In (Emitted a) (map Observed store)).
      { intros a H. apply in_map_iff in H. destruct H as (b & Hb & _). discriminate Hb. }
      split; [| split].
      * intros before after H.
        assert (Hin : In (Emitted dismissNewWalletDialog)
                        (Requested createRequest
                           :: Emitted (showNewWalletDialog seed seed)
                           :: map Observed store))
          by (rewrite H; apply in_elt).
        destruct Hin as [Hin | [Hin | Hin]]; try discriminate Hin.
        destruct (Hobs _ Hin).
      * intros [H | [H | H]]; try discriminate H. destruct (Hobs _ H).
      * intros s1 s2 [H | [H | H]]; try discriminate H.
        -- injection H as <- <-. eauto.
        -- destruct (Hobs _ H).
  - assert (Hnone : emitted t = []).
    { apply createWallet_failure. intros r s Hr Hs. congruence. }
    split; [| split].
    + intros before after H. exfalso.
      apply (Hfailure Hnone dismissNewWalletDialog). rewrite H. apply in_elt.
    + intros H. destruct (Hfailure Hnone _ H).
    + intros s1 s2 H. destruct (Hfailure Hnone _ H).
  - assert (Hnone : emitted t = []).
    { apply createWallet_failure. intros r s Hr Hs. congruence. }
    split; [| split].
    + intros before after H. exfalso.
      apply (Hfailure Hnone dismissNewWalletDialog). rewrite H. apply in_elt.
    + intros H. destruct (Hfailure Hnone _ H).
    + intros s1 s2 H. destruct (Hfailure Hnone _ H).
Qed.

Lemma createWallet_dismisses_only_after_unlock_witness :
  let w := wallet (Normal (VObj [("primaryseed", VStr "abbey lunar fences")])) in
  let words := VStr "abbey lunar fences" in
  trace w createWalletSaga [setLocked; setUnlocked]
    = [Requested createRequest; Emitted (showNewWalletDialog words words);
       Observed setLocked; Observed setUnlocked; Emitted dismissNewWalletDialog]
  /\ exists early seed later,
      [Requested createRequest; Emitted (showNewWalletDialog words words);
       Observed setLocked; Observed setUnlocked]
        = (early ++ Emitted (showNewWalletDialog seed seed) :: later)%list
      /\ In (Observed setUnlocked) later.
Proof.
  split; [reflexivity |].
  exact (proj1 (createWallet_dismisses_only_after_unlock
                  (wallet (Normal (VObj [("primaryseed", VStr "abbey lunar fences")])))
                  [setLocked; setUnlocked])
               [Requested createRequest;
                Emitted (showNewWalletDialog (VStr "abbey lunar fences")
                                             (VStr "abbey lunar fences"));
                Observed setLocked; Observed setUnlocked]
               [] eq_refl).
Defined.

Example createWallet_waits :
  run (wallet (Normal (VObj [("primaryseed", VStr "abbey lunar fences")])))
      createWalletSaga [setLocked; setEncrypted]
  = ([Requested createRequest;
      Emitted (showNewWalletDialog (VStr "abbey lunar fences") (VStr "abbey lunar fences"));
      Observed setLocked; Observed setEncrypted], Waiting SET_UNLOCKED).
Proof. reflexivity. Qed.

(** C9.  The wait of CreateWallet ends at the first setUnlocked that
    reaches the store after showNewWalletDialog, whoever dispatched it:
    an action carries no trace of its origin, and the saga then
    dispatches dismissNewWalletDialog at once.  The setUnlocked that a
    GetLockStatus poll dispatches for an unlocked wallet is such an
    action. *)
Theorem createWallet_released_by_any_setUnlocked :
  forall (w : world) (response seed : value),
    siad w createRequest = Normal response ->
    getField response "primaryseed" = Normal seed ->
    (forall before after : list action,
        ~ In setUnlocked before ->
        run w createWalletSaga (before ++ setUnlocked :: after)%list
          = (Requested createRequest :: Emitted (showNewWalletDialog seed seed)
               :: map Observed before
               ++ [Observed setUnlocked; Emitted dismissNewWalletDialog],
             Finished)%list)
    /\ (forall (poll : world) (fields : list (string * value)) (others : list action),
           siad poll (VStr "/wallet") = Normal (VObj fields) ->
           truthy (lookup "unlocked" fields) = true ->
           exists rest,
             emitted (trace poll getLockStatusSaga others) = setUnlocked :: rest
             /\ run w createWalletSaga (emitted (trace poll getLockStatusSaga others))
                = ([Requested createRequest; Emitted (showNewWalletDialog seed seed);
                    Observed setUnlocked; Emitted dismissNewWalletDialog], Finished)).
Proof.
  intros w response seed Hresp Hseed.
  assert (Hfirst : forall before after : list action,
             ~ In setUnlocked before ->
             run w createWalletSaga (before ++ setUnlocked :: after)%list
             = (Requested createRequest :: Emitted (showNewWalletDialog seed seed)
                  :: map Observed before
                  ++ [Observed setUnlocked; Emitted dismissNewWalletDialog],
                Finished)%list).
  { intros before after Hbefore.
    rewrite (createWallet_run w _ response seed Hresp Hseed).
    rewrite await_first; [| | reflexivity].
    - now rewrite <- app_assoc.
    - intros b Hb. apply not_true_iff_false. intros Hty.
      apply hasType_SET_UNLOCKED in Hty. subst b. exact (Hbefore Hb). }
  split; [exact Hfirst |].
  intros poll fields others Hpoll Hunlocked.
  destruct (getLockStatus_emits poll fields others Hpoll) as [rest Hrest].
  rewrite Hunlocked in Hrest. exists rest. split; [exact Hrest |].
  rewrite Hrest. exact (Hfirst [] rest (fun H => H)).
Qed.

Lemma createWallet_released_by_any_setUnlocked_witness :
  let w := wallet (Normal (VObj [("primaryseed", VStr "abbey lunar fences")])) in
  let poll := wallet (Normal (VObj [("unlocked", VBool true); ("encrypted", VBool true)])) in
  let seed := VStr "abbey lunar fences" in
  exists rest,
    emitted (trace poll getLockStatusSaga []) = setUnlocked :: rest
    /\ run w createWalletSaga (emitted (trace poll getLockStatusSaga []))
       = ([Requested createRequest; Emitted (showNewWalletDialog seed seed);
           Observed setUnlocked; Emitted dismissNewWalletDialog], Finished).
Proof.
  exact (proj2 (createWallet_released_by_any_setUnlocked
                  (wallet (Normal (VObj [("primaryseed", VStr "abbey lunar fences")])))
                  (VObj [("primaryseed", VStr "abbey lunar fences")])
                  (VStr "abbey lunar fences") eq_refl eq_refl)
               (wallet (Normal (VObj [("unlocked", VBool true); ("encrypted", VBool true)])))
               [("unlocked", VBool true); ("encrypted", VBool true)] []
               eq_refl eq_refl).
Defined.

(** ** One outcome per command *)

Lemma getField_throws_TypeError (v : value) (key : string) (e : value) :
  getField v key = Abrupt e -> nullish e = false.
Proof.
  destruct v; simpl; try discriminate; try (intros H; injection H as <-; reflexivity).
  destruct (String.eqb key "message"); [discriminate |].
  destruct (String.eqb key "name"); discriminate.
Qed.

(** A value that has let one property be read lets any be read. *)
Lemma getField_again (v : value) (key key' : string) (x : value) :
  getField v key = Normal x -> exists y, getField v key' = Normal y.
Proof.
  destruct v; simpl; try discriminate; intros _; eauto.
  destruct (String.eqb key' "message"); eauto.
  destruct (String.eqb key' "name"); eauto.
Qed.

Lemma getField_of_thrown (v : value) (key : string) :
  nullish v = false -> exists y, getField v key = Normal y.
Proof.
  destruct v; simpl; try discriminate; intros _; eauto.
  destruct (String.eqb key "message"); eauto.
  destruct (String.eqb key "name"); eauto.
Qed.

Lemma sendError_run (w : world) (e : value) (store : list action) :
  nullish e = false ->
  exists content,
    run w (sendError e) store = ([Notified "Sia-UI Wallet Error" content], Finished).
Proof.
  intros He. unfold sendError.
  destruct e as [| | b | n | s | fields | name message]; try discriminate He; simpl;
    try (eexists; reflexivity).
  - destruct b; eexists; reflexivity.
  - destruct (isUndefined (lookup "message" fields)); eexists; reflexivity.
Qed.

Lemma logError_run (w : world) (prefix : string) (e : value) (store : list action) :
  nullish e = false ->
  exists line, run w (logError prefix e) store = ([Logged line], Finished).
Proof.
  intros He. unfold logError.
  destruct e as [| | b | n | s | fields | name message]; try discriminate He; simpl;
    try (eexists; reflexivity).
  - destruct b; eexists; reflexivity.
  - destruct message; eexists; reflexivity.
Qed.

Lemma notifications_app (t1 t2 : list event) :
  notifications (t1 ++ t2)%list = (notifications t1 ++ notifications t2)%list.
Proof. apply flat_map_app. Qed.

Lemma logs_app (t1 t2 : list event) :
  logs (t1 ++ t2)%list = (logs t1 ++ logs t2)%list.
Proof. apply flat_map_app. Qed.

Lemma notifications_observed (l : list action) : notifications (map Observed l) = [].
Proof. induction l; simpl; auto. Qed.

Lemma logs_observed (l : list action) : logs (map Observed l) = [].
Proof. induction l; simpl; auto. Qed.

Section Outcomes.

Variable w : world.
Hypothesis Hworld : throwsValues w.
Variable store : list action.

Let siad_throws := proj1 Hworld.
Let conversion_throws := proj1 (proj2 Hworld).
Let parser_throws := proj2 (proj2 Hworld).

(** The value in [e] was thrown by the world or by a property read. *)
Ltac thrown :=
  match goal with
  | H : siad w _ = Abrupt ?e |- nullish ?e = false => exact (siad_throws _ _ H)
  | H : conversion w _ _ = Abrupt ?e |- nullish ?e = false =>
      exact (conversion_throws _ _ _ H)
  | H : parser w _ = Abrupt ?e |- nullish ?e = false => exact (parser_throws _ _ H)
  | H : getField _ _ = Abrupt ?e |- nullish ?e = false =>
      exact (getField_throws_TypeError _ _ _ H)
  | |- nullish (VObj _) = false => reflexivity
  end.

(** One step of a run: ask the world, or run a handler to its end. *)
Ltac step :=
  match goal with
  | |- context [run w (sendError ?e) store] =>
      let content := fresh "content" in
      destruct (sendError_run w e store) as [content ->]; [thrown |]
  | |- context [run w (logError ?p ?e) store] =>
      let line := fresh "line" in
      destruct (logError_run w p e store) as [line ->]; [thrown |]
  | |- context [siad w ?r] => destruct (siad w r) eqn:?
  | |- context [conversion w ?h ?v] => destruct (conversion w h v) eqn:?
  | |- context [parser w ?v] => destruct (parser w v) eqn:?
  | |- context [truthy ?v] => destruct (truthy v)
  | H : getField ?v _ = Normal _ |- context [getField ?v ?k] =>
      destruct (getField_again v _ k _ H) as [? ->]
  | |- context [getField ?v ?k] =>
      first [ destruct (getField_of_thrown v k) as [? ->]; [thrown |]
            | destruct (getField v k) eqn:? ]
  end; simpl.

Ltac classify :=
  first
    [ left; solve [repeat split; [discriminate | intros ? H; membership H | auto]]
    | right; solve [repeat split; eauto] ].

Lemma getLockStatus_outcome :
  let r := run w getLockStatusSaga store in succeeded r \/ onlyLogged r.
Proof.
  unfold succeeded, onlyLogged. simpl. repeat step; classify.
Qed.

Lemma walletUnlock_outcome (cmd : command) :
  let r := run w (walletUnlockSaga cmd) store in succeeded r \/ unlockFailed r.
Proof.
  unfold succeeded, unlockFailed. simpl. repeat step; classify.
Qed.

Lemma walletLock_outcome :
  let r := run w walletLockSaga store in succeeded r \/ notified r.
Proof.
  unfold succeeded, notified. simpl. repeat step; classify.
Qed.

Lemma getBalance_outcome :
  let r := run w getBalanceSaga store in succeeded r \/ onlyLogged r.
Proof.
  unfold succeeded, onlyLogged. simpl. repeat step; classify.
Qed.

Lemma getTransactions_outcome :
  let r := run w getTransactionsSaga store in succeeded r \/ onlyLogged r.
Proof.
  unfold succeeded, onlyLogged. simpl. repeat step; classify.
Qed.

Lemma getNewReceiveAddress_outcome :
  let r := run w getNewReceiveAddressSaga store in succeeded r \/ notified r.
Proof.
  unfold succeeded, notified. simpl. repeat step; classify.
Qed.

Lemma getSyncState_outcome :
  let r := run w getSyncStateSaga store in succeeded r \/ onlyLogged r.
Proof.
  unfold succeeded, onlyLogged. simpl. repeat step; classify.
Qed.

Lemma createWallet_outcome :
  let r := run w createWalletSaga store in succeeded r \/ notified r.
Proof.
  cbv zeta.
  destruct (siad w createRequest) as [response | e] eqn:Hresp;
    [destruct (getField response "primaryseed") as [seed | e] eqn:Hseed |].
  - left. rewrite (createWallet_run w store response seed Hresp Hseed).
    unfold succeeded.
    destruct (await_cases SET_UNLOCKED store)
      as [(seen & a & rest & _ & _ & _ & ->) | [_ ->]]; simpl;
      rewrite ?emitted_app, ?notifications_app, ?logs_app,
        ?emitted_observed, ?notifications_observed, ?logs_observed; simpl;
      (repeat split; [discriminate | intros ? H; membership H | auto]).
  - right. unfold notified. simpl. fold createRequest. rewrite Hresp. simpl.
    rewrite Hseed. simpl. repeat step. repeat split; eauto.
  - right. unfold notified. simpl. fold createRequest. rewrite Hresp. simpl.
    repeat step. repeat split; eauto.
Qed.

Lemma sendCurrency_outcome (cmd : command) :
  let r := run w (sendCurrencySaga cmd) store in succeeded r \/ notified r.
Proof.
  unfold succeeded, notified, sendCurrencySaga.
  destruct (missingField cmd); [simpl; classify |].
  destruct (unknownCurrency cmd); [simpl; classify |].
  destruct (isString (currencytype cmd) "siacoins"); simpl;
    repeat step; classify.
Qed.

End Outcomes.

Example lockStatus_poll_fails_silently :
  watch pollCommand = Some getLockStatusSaga
  /\ run (wallet (Abrupt (VError "Error" "socket hang up"))) getLockStatusSaga []
     = ([Requested (VStr "/wallet");
         Logged "error fetching lock status: Error: socket hang up"], Finished).
Proof. split; reflexivity. Qed.



(** The outcomes exclude one another. *)
Lemma outcomes_are_exclusive (r : list event * status) :
  (succeeded r -> ~ notified r /\ ~ unlockFailed r /\ ~ onlyLogged r)
  /\ (notified r -> ~ unlockFailed r /\ ~ onlyLogged r)
  /\ (unlockFailed r -> ~ onlyLogged r).
Proof.
  unfold succeeded, notified, unlockFailed, onlyLogged.
  split; [| split].
  - intros (Hs & Hu & _). repeat split.
    + intros (Hn & _). exact (Hs Hn).
    + intros ((m & Hm) & _). apply (Hu m). rewrite Hm. right. now left.
    + intros (Hn & _). exact (Hs Hn).
  - intros (Hn & (c & Hc) & _). split.
    + intros ((m & Hm) & _). rewrite Hm in Hn. discriminate Hn.
    + intros (_ & Hn' & _). rewrite Hc in Hn'. discriminate Hn'.
  - intros ((m & Hm) & _) (Hn & _). rewrite Hm in Hn. discriminate Hn.
Qed.


Lemma wallet_throwsValues (answer : completion value) :
  (forall e, answer = Abrupt e -> nullish e = false) ->
  throwsValues (wallet answer).
Proof.
  intros Hanswer. repeat split; simpl.
  - intros _ e. apply Hanswer.
  - intros h v e. destruct v, h; simpl; try discriminate;
      intros H; injection H as <-; reflexivity.
  - discriminate.
Qed.


(** * Further properties of the sagas *)

(** ** Exploring a run *)

(** Every question a run asks the world, and every test the sagas make
    on what comes back, split into its cases. *)
Ltac explore :=
  repeat (simpl;
          match goal with
          | |- context [run _ (sendError _) _] => unfold sendError
          | |- context [run _ (logError _ _) _] => unfold logError
          | |- context [siad ?w ?r] => destruct (siad w r) eqn:?
          | |- context [conversion ?w ?h ?v] => destruct (conversion w h v) eqn:?
          | |- context [parser ?w ?v] => destruct (parser w v) eqn:?
          | |- context [truthy ?v] => destruct (truthy v) eqn:?
          | H : getField ?v _ = Normal _ |- context [getField ?v ?k] =>
              let y := fresh "y" in
              let Hy := fresh "Hy" in
              destruct (getField_again v _ k _ H) as [y Hy]; rewrite Hy
          | |- context [getField ?v ?k] => destruct (getField v k) eqn:?
          | |- context [isUndefined ?v] => destruct (isUndefined v) eqn:?
          | |- context [JS.toString ?e] => destruct (JS.toString e) eqn:?
          end);
  simpl.

(** ** At most one request, and nothing before it *)

Lemma requests_app (t1 t2 : list event) :
  requests (t1 ++ t2)%list = (requests t1 ++ requests t2)%list.
Proof. apply flat_map_app. Qed.

Lemma requests_observed (l : list action) : requests (map Observed l) = [].
Proof. induction l; simpl; auto. Qed.

Lemma await_observes (pattern : constant) (store : list action) :
  exists l, fst (await pattern store) = map Observed l.
Proof.
  destruct (await_cases pattern store)
    as [(before & a & after & _ & _ & _ & ->) | [_ ->]]; simpl.
  - exists (before ++ [a])%list. now rewrite map_app.
  - now exists store.
Qed.

Section OneRequest.

Variable w : world.
Variable store : list action.

Ltac starts := unfold startsWithRequest, trace; explore; eauto.

Lemma getLockStatus_starts :
  startsWithRequest (trace w getLockStatusSaga store).
Proof. starts. Qed.

Lemma walletUnlock_starts (cmd : command) :
  startsWithRequest (trace w (walletUnlockSaga cmd) store).
Proof. starts. Qed.

Lemma walletLock_starts : startsWithRequest (trace w walletLockSaga store).
Proof. starts. Qed.

Lemma getBalance_starts : startsWithRequest (trace w getBalanceSaga store).
Proof. starts. Qed.

Lemma getTransactions_starts :
  startsWithRequest (trace w getTransactionsSaga store).
Proof. starts. Qed.

Lemma getNewReceiveAddress_starts :
  startsWithRequest (trace w getNewReceiveAddressSaga store).
Proof. starts. Qed.

Lemma getSyncState_starts : startsWithRequest (trace w getSyncStateSaga store).
Proof. starts. Qed.

Lemma createWallet_starts : startsWithRequest (trace w createWalletSaga store).
Proof.
  unfold startsWithRequest, trace. simpl.
  destruct (siad w _) as [response | e] eqn:Hresp; simpl;
    [destruct (getField response "primaryseed") as [seed | e] eqn:Hseed; simpl |].
  - destruct (await_observes SET_UNLOCKED store) as [l Hl].
    destruct (await SET_UNLOCKED store) as [seen [[a rest] |]];
      simpl in Hl; subst seen; simpl;
      do 2 eexists; (split; [reflexivity |]); simpl;
      rewrite ?requests_app, requests_observed; reflexivity.
  - explore; eauto.
  - explore; eauto.
Qed.

(** SendCurrency sends its request after at most a conversion, or
    sends none. *)
Lemma sendCurrency_request (cmd : command) :
  let t := trace w (sendCurrencySaga cmd) store in
  (exists before r after,
      t = (before ++ Requested r :: after)%list
      /\ quiet before /\ requests before = [] /\ requests after = [])
  \/ requests t = [].
Proof.
  unfold trace, sendCurrencySaga, quiet.
  destruct (missingField cmd); [right; reflexivity |].
  destruct (unknownCurrency cmd); [right; reflexivity |].
  destruct (isString (currencytype cmd) "siacoins"); explore;
    try (right; reflexivity);
    left;
    first [ exists []; do 2 eexists; split; [reflexivity |]; now repeat split
          | eexists [_]; do 2 eexists; split; [reflexivity |]; now repeat split ].
Qed.

End OneRequest.

(** X1.  Every command sends at most one request to the daemon.
    Every command but SendCurrency sends exactly one, and it is the
    first thing the saga does; SendCurrency does nothing before its
    request that the store, the user or the console could see. *)
Theorem each_command_sends_at_most_one_request :
  forall (w : world) (cmd : command) (s : saga unit) (store : list action),
    watch cmd = Some s ->
    let t := trace w s store in
    (exists before r after,
        t = (before ++ Requested r :: after)%list
        /\ quiet before /\ requests before = [] /\ requests after = []
        /\ (type cmd <> SEND_CURRENCY -> before = []))
    \/ (type cmd = SEND_CURRENCY /\ requests t = []).
Proof.
  intros w cmd s store Hwatch. unfold watch in Hwatch. cbv zeta.
  assert (Hstart : forall t, startsWithRequest t ->
            exists before r after,
              t = (before ++ Requested r :: after)%list
              /\ quiet before /\ requests before = [] /\ requests after = []
              /\ (type cmd <> SEND_CURRENCY -> before = [])).
  { intros t (r & rest & -> & Hrest). exists [], r, rest.
    unfold quiet. simpl. auto 10. }
  destruct (type cmd) eqn:Htype; try discriminate Hwatch;
    injection Hwatch as <-.
  - left. apply Hstart, createWallet_starts.
  - left. apply Hstart, getLockStatus_starts.
  - left. apply Hstart, walletUnlock_starts.
  - left. apply Hstart, walletLock_starts.
  - left. apply Hstart, getBalance_starts.
  - left. apply Hstart, getTransactions_starts.
  - left. apply Hstart, getNewReceiveAddress_starts.
  - destruct (sendCurrency_request w store cmd)
      as [(before & r & after & Ht & Hq & Hb & Ha) | Hnone].
    + left. exists before, r, after.
      split; [exact Ht |]. split; [exact Hq |]. split; [exact Hb |].
      split; [exact Ha |]. intros H. now destruct H.
    + right. split; [reflexivity | exact Hnone].
  - left. apply Hstart, getSyncState_starts.
Qed.

Lemma each_command_sends_at_most_one_request_witness :
  let t := trace (wallet (Normal VNull))
                 (sendCurrencySaga (sendCommand (VStr "siacoins") (VNum 3) (VStr "addr"))) [] in
  (exists before r after,
      t = (before ++ Requested r :: after)%list
      /\ quiet before /\ requests before = [] /\ requests after = []
      /\ (SEND_CURRENCY <> SEND_CURRENCY -> before = []))
  \/ (SEND_CURRENCY = SEND_CURRENCY /\ requests t = []).
Proof.
  exact (each_command_sends_at_most_one_request
           (wallet (Normal VNull))
           (sendCommand (VStr "siacoins") (VNum 3) (VStr "addr"))
           (sendCurrencySaga (sendCommand (VStr "siacoins") (VNum 3) (VStr "addr")))
           [] eq_refl).
Defined.

(** ** Only CreateWallet reads the store *)

Section StoreIndependence.

Variable w : world.
Variable store : list action.

Ltac ignores :=
  unfold ignoresStore; explore; (split; [reflexivity | intros pattern; discriminate]).

Lemma getLockStatus_ignoresStore : ignoresStore w store getLockStatusSaga.
Proof. ignores. Qed.

Lemma walletUnlock_ignoresStore (cmd : command) : ignoresStore w store (walletUnlockSaga cmd).
Proof. ignores. Qed.

Lemma walletLock_ignoresStore : ignoresStore w store walletLockSaga.
Proof. ignores. Qed.

Lemma getBalance_ignoresStore : ignoresStore w store getBalanceSaga.
Proof. ignores. Qed.

Lemma getTransactions_ignoresStore : ignoresStore w store getTransactionsSaga.
Proof. ignores. Qed.

Lemma getNewReceiveAddress_ignoresStore : ignoresStore w store getNewReceiveAddressSaga.
Proof. ignores. Qed.

Lemma getSyncState_ignoresStore : ignoresStore w store getSyncStateSaga.
Proof. ignores. Qed.

Lemma sendCurrency_ignoresStore (cmd : command) : ignoresStore w store (sendCurrencySaga cmd).
Proof.
  unfold ignoresStore, sendCurrencySaga.
  destruct (missingField cmd); [ignores |].
  destruct (unknownCurrency cmd); [ignores |].
  destruct (isString (currencytype cmd) "siacoins"); ignores.
Qed.

End StoreIndependence.

(** X2.  No saga but CreateWallet looks at the actions other parties
    dispatch: its run is the same whatever reaches the store, and it
    never ends suspended in a [take]. *)
Theorem only_createWallet_reads_the_store :
  forall (w : world) (cmd : command) (s : saga unit) (store : list action),
    watch cmd = Some s ->
    type cmd <> CREATE_NEW_WALLET ->
    run w s store = run w s []
    /\ forall pattern, snd (run w s store) <> Waiting pattern.
Proof.
  intros w cmd s store Hwatch Htype. unfold watch in Hwatch.
  destruct (type cmd); try discriminate Hwatch; injection Hwatch as <-.
  - now destruct Htype.
  - apply getLockStatus_ignoresStore.
  - apply walletUnlock_ignoresStore.
  - apply walletLock_ignoresStore.
  - apply getBalance_ignoresStore.
  - apply getTransactions_ignoresStore.
  - apply getNewReceiveAddress_ignoresStore.
  - apply sendCurrency_ignoresStore.
  - apply getSyncState_ignoresStore.
Qed.

Lemma only_createWallet_reads_the_store_witness :
  let w := wallet (Normal (VObj [("unlocked", VBool true); ("encrypted", VBool true)])) in
  run w getLockStatusSaga [setUnlocked; getBalance] = run w getLockStatusSaga []
  /\ forall pattern,
      snd (run w getLockStatusSaga [setUnlocked; getBalance]) <> Waiting pattern.
Proof.
  refine (only_createWallet_reads_the_store
            (wallet (Normal (VObj [("unlocked", VBool true); ("encrypted", VBool true)])))
            pollCommand getLockStatusSaga [setUnlocked; getBalance] eq_refl _).
  simpl. discriminate.
Defined.

(** ** UnlockWallet and LockWallet *)

(** X3.  UnlockWallet reports the wallet unlocked only when the daemon
    accepted the password: then it dispatches setEncrypted, setUnlocked
    and handlePasswordChange(''), in that order, whatever the response
    holds.  When the request fails, neither setUnlocked nor
    setEncrypted is dispatched. *)
Theorem walletUnlock_reports_unlocked_only_on_success :
  forall (w : world) (cmd : command) (store : list action),
    let out := emitted (trace w (walletUnlockSaga cmd) store) in
    match siad w (unlockRequest (password cmd)) with
    | Normal _ =>
        run w (walletUnlockSaga cmd) store
        = ([Requested (unlockRequest (password cmd));
            Emitted setEncrypted; Emitted setUnlocked;
            Emitted (handlePasswordChange (VStr ""))], Finished)
    | Abrupt _ => ~ In setUnlocked out /\ ~ In setEncrypted out
    end.
Proof.
  intros w cmd store. cbv zeta. unfold trace. simpl.
  fold (unlockRequest (password cmd)).
  destruct (siad w (unlockRequest (password cmd))) as [response | e]; simpl.
  - reflexivity.
  - destruct (getField e "message"); simpl; split; intros H; membership H.
Qed.

(** X4.  Every run of UnlockWallet clears the password field exactly
    once, and with the empty string: on success, on failure, and also
    when the failure value is [undefined] or [null]. *)
Theorem walletUnlock_clears_password_once :
  forall (w : world) (cmd : command) (store : list action),
    exists before after,
      emitted (trace w (walletUnlockSaga cmd) store)
        = (before ++ handlePasswordChange (VStr "") :: after)%list
      /\ (forall v, ~ In (handlePasswordChange v) before)
      /\ (forall v, ~ In (handlePasswordChange v) after).
Proof.
  intros w cmd store. unfold trace. explore.
  - exists [setEncrypted; setUnlocked], [].
    split; [reflexivity |]. split; intros v H; membership H.
  - eexists [], [_].
    split; [reflexivity |]. split; intros v H; membership H.
  - exists [], [].
    split; [reflexivity |]. split; intros v H; membership H.
Qed.



(** ** The notification of sendError *)

(** X6.  [sendError] shows the [message] of the value it is given
    whenever that property is not undefined, as it is: also when it is
    [null], the empty string or not a string at all.  The title is
    always the same. *)
Theorem sendError_shows_the_message :
  forall (w : world) (e message : value) (store : list action),
    getField e "message" = Normal message ->
    message <> VUndefined ->
    run w (sendError e) store
    = ([Notified "Sia-UI Wallet Error" message], Finished).
Proof.
  intros w e message store Hm Hdef. unfold sendError. simpl. rewrite Hm. simpl.
  destruct (isUndefined message) eqn:Hu.
  - apply isUndefined_eq in Hu. contradiction.
  - reflexivity.
Qed.

Lemma sendError_shows_the_message_witness :
  run (wallet (Normal VNull)) (sendError (VObj [("message", VNull)])) []
  = ([Notified "Sia-UI Wallet Error" VNull], Finished).
Proof.
  apply (sendError_shows_the_message
           (wallet (Normal VNull)) (VObj [("message", VNull)]) VNull []).
  - reflexivity.
  - discriminate.
Defined.

(** ** GetTransactions, GetNewReceiveAddress, GetSyncState *)

(** X7.  GetTransactions asks for the whole history and hands the
    response to [parseRawTransactions] as it came.  If the parser
    returns, its result is dispatched in one setTransactions; if the
    parser throws, or the request fails (and then the parser is not
    called), nothing is dispatched and no notification is shown. *)
Theorem getTransactions_dispatches_what_the_parser_returns :
  forall (w : world) (store : list action),
    let t := trace w getTransactionsSaga store in
    requests t = [transactionsRequest]
    /\ match siad w transactionsRequest with
       | Normal response =>
           parses t = [response]
           /\ match parser w response with
              | Normal transactions =>
                  run w getTransactionsSaga store
                  = ([Requested transactionsRequest; Parsed response;
                      Emitted (setTransactions transactions)], Finished)
              | Abrupt _ => emitted t = [] /\ notifications t = []
              end
       | Abrupt _ => parses t = [] /\ emitted t = [] /\ notifications t = []
       end.
Proof.
  intros w store. cbv zeta. unfold trace. simpl. fold transactionsRequest.
  destruct (siad w transactionsRequest) as [response | e]; simpl.
  - destruct (parser w response) as [transactions | e]; simpl.
    + repeat split.
    + logError_cases e; repeat split.
  - logError_cases e; repeat split.
Qed.

(** X8.  GetNewReceiveAddress either dispatches nothing, or dispatches
    setReceiveAddress with the [address] property of the response, as
    it came, and then showReceivePrompt: the prompt is never shown
    without an address set just before, and never after a failure. *)
Theorem getNewReceiveAddress_sets_then_shows :
  forall (w : world) (store : list action),
    let t := trace w getNewReceiveAddressSaga store in
    (emitted t = [] /\ siad_failed w (VStr "/wallet/address"))
    \/ exists response address,
        siad w (VStr "/wallet/address") = Normal response
        /\ getField response "address" = Normal address
        /\ run w getNewReceiveAddressSaga store
           = ([Requested (VStr "/wallet/address");
               Emitted (setReceiveAddress address);
               Emitted showReceivePrompt], Finished).
Proof.
  intros w store. cbv zeta. unfold trace, siad_failed. simpl.
  destruct (siad w (VStr "/wallet/address")) as [response | e]; simpl.
  - destruct (getField response "address") as [address | e] eqn:Haddress; simpl.
    + right. exists response, address. auto.
    + left. split.
      * sendError_cases e; reflexivity.
      * right. exists response. split; [reflexivity |].
        destruct response; simpl in Haddress; try discriminate Haddress;
          reflexivity.
  - left. split.
    + sendError_cases e; reflexivity.
    + left. eauto.
Qed.

(** X9.  GetSyncState either dispatches nothing and shows nothing, or
    dispatches one setSyncState that carries the [synced] property of
    the response as it came, without turning it into a boolean. *)
Theorem getSyncState_passes_synced_through :
  forall (w : world) (store : list action),
    let t := trace w getSyncStateSaga store in
    (emitted t = [] /\ notifications t = [] /\ siad_failed w (VStr "/consensus"))
    \/ exists response synced,
        siad w (VStr "/consensus") = Normal response
        /\ getField response "synced" = Normal synced
        /\ run w getSyncStateSaga store
           = ([Requested (VStr "/consensus"); Emitted (setSyncState synced)],
              Finished).
Proof.
  intros w store. cbv zeta. unfold trace, siad_failed. simpl.
  destruct (siad w (VStr "/consensus")) as [response | e]; simpl.
  - destruct (getField response "synced") as [synced | e] eqn:Hsynced; simpl.
    + right. exists response, synced. auto.
    + left. split; [| split].
      * logError_cases e; reflexivity.
      * logError_cases e; reflexivity.
      * right. exists response. split; [reflexivity |].
        destruct response; simpl in Hsynced; try discriminate Hsynced;
          reflexivity.
  - left. split; [| split].
    + logError_cases e; reflexivity.
    + logError_cases e; reflexivity.
    + left. eauto.
Qed.

(** ** SendCurrency: which fault, which amount *)

(** X10.  The first check of SendCurrency wins: when the amount, the
    destination or the currency type is undefined or the empty string,
    the notification asks for an amount and a destination, whatever the
    currency type is; the invalid-currency notification is shown only
    when all three are present. *)
Theorem sendCurrency_reports_the_first_fault :
  forall (w : world) (cmd : command) (store : list action),
    (In (amount cmd) [VUndefined; VStr ""]
     \/ In (destination cmd) [VUndefined; VStr ""]
     \/ In (currencytype cmd) [VUndefined; VStr ""] ->
     run w (sendCurrencySaga cmd) store
     = ([Notified "Sia-UI Wallet Error"
           (VStr "You must specify an amount and a destination to send Siacoin!")],
        Finished))
    /\ (run w (sendCurrencySaga cmd) store
        = ([Notified "Sia-UI Wallet Error" (VStr "Invalid currency type!")], Finished) ->
        ~ In (amount cmd) [VUndefined; VStr ""]
        /\ ~ In (destination cmd) [VUndefined; VStr ""]
        /\ ~ In (currencytype cmd) [VUndefined; VStr ""]).
Proof.
  intros w cmd store. split.
  - intros H. apply missingField_spec in H.
    unfold sendCurrencySaga. rewrite H. reflexivity.
  - intros Hrun.
    assert (Hmissing : missingField cmd = false).
    { destruct (missingField cmd) eqn:Hm; [| reflexivity].
      unfold sendCurrencySaga in Hrun. rewrite Hm in Hrun. discriminate Hrun. }
    apply not_true_iff_false in Hmissing.
    rewrite missingField_spec in Hmissing. tauto.
Qed.

Lemma sendCurrency_reports_the_first_fault_witness :
  run (wallet (Normal VNull))
      (sendCurrencySaga (sendCommand (VStr "bogus") (VStr "") (VStr "addr"))) []
  = ([Notified "Sia-UI Wallet Error"
        (VStr "You must specify an amount and a destination to send Siacoin!")],
     Finished).
Proof.
  apply (proj1 (sendCurrency_reports_the_first_fault
                  (wallet (Normal VNull))
                  (sendCommand (VStr "bogus") (VStr "") (VStr "addr")) [])).
  left. simpl. right. left. reflexivity.
Defined.

Lemma present_fields (cmd : command) :
  ~ In (amount cmd) [VUndefined; VStr ""] ->
  ~ In (destination cmd) [VUndefined; VStr ""] ->
  ~ In (currencytype cmd) [VUndefined; VStr ""] ->
  missingField cmd = false.
Proof.
  intros Ha Hd Hc. apply not_true_iff_false. rewrite missingField_spec. tauto.
Qed.

(** X11.  A siacoin amount is converted once, by
    [SiaAPI.siacoinsToHastings], before anything else happens.  If the
    conversion returns, the request that follows is a POST to
    /wallet/siacoins with the destination as given and the hastings
    printed as a string; if it throws, no request is sent and nothing
    is dispatched. *)
Theorem sendCurrency_converts_siacoins_first :
  forall (w : world) (cmd : command) (store : list action),
    currencytype cmd = VStr "siacoins" ->
    ~ In (amount cmd) [VUndefined; VStr ""] ->
    ~ In (destination cmd) [VUndefined; VStr ""] ->
    let t := trace w (sendCurrencySaga cmd) store in
    conversions t = [amount cmd]
    /\ match conversion w siacoinsToHastings (amount cmd) with
       | Normal hastings =>
           exists rest,
             t = Converted siacoinsToHastings (amount cmd)
                 :: Requested (sendRequest "siacoins" (destination cmd)
                                 (VStr (BigNumber.toString hastings)))
                 :: rest
       | Abrupt _ => requests t = [] /\ emitted t = []
       end.
Proof.
  intros w cmd store Hcur Ha Hd. cbv zeta.
  assert (Hmissing : missingField cmd = false).
  { apply present_fields; auto. rewrite Hcur. simpl. intuition discriminate. }
  unfold trace, sendCurrencySaga. rewrite Hmissing.
  unfold unknownCurrency. rewrite Hcur. simpl.
  destruct (conversion w siacoinsToHastings (amount cmd)) as [hastings | e]; simpl.
  - match goal with |- context [siad w ?r] => destruct (siad w r) as [? | e] end; simpl.
    + split; [reflexivity | eauto].
    + sendError_cases e; (split; [reflexivity | eauto]).
  - sendError_cases e; repeat split.
Qed.

Lemma sendCurrency_converts_siacoins_first_witness :
  let cmd := sendCommand (VStr "siacoins") (VNum 3) (VStr "addr") in
  let t := trace (wallet (Normal VNull)) (sendCurrencySaga cmd) [] in
  conversions t = [VNum 3]
  /\ exists rest,
      t = Converted siacoinsToHastings (VNum 3)
          :: Requested (sendRequest "siacoins" (VStr "addr")
                          (VStr "3000000000000000000000000"))
          :: rest.
Proof.
  refine (sendCurrency_converts_siacoins_first
            (wallet (Normal VNull))
            (sendCommand (VStr "siacoins") (VNum 3) (VStr "addr")) []
            eq_refl _ _);
    simpl; intuition discriminate.
Defined.

(** X12.  A siafund amount is never converted: the request is a POST
    to /wallet/siafunds that carries the amount and the destination
    exactly as the command gave them, whatever kind of value they
    are. *)
Theorem sendCurrency_passes_siafunds_through :
  forall (w : world) (cmd : command) (store : list action),
    currencytype cmd = VStr "siafunds" ->
    ~ In (amount cmd) [VUndefined; VStr ""] ->
    ~ In (destination cmd) [VUndefined; VStr ""] ->
    let t := trace w (sendCurrencySaga cmd) store in
    conversions t = []
    /\ exists rest,
        t = Requested (sendRequest "siafunds" (destination cmd) (amount cmd)) :: rest.
Proof.
  intros w cmd store Hcur Ha Hd. cbv zeta.
  assert (Hmissing : missingField cmd = false).
  { apply present_fields; auto. rewrite Hcur. simpl. intuition discriminate. }
  unfold trace, sendCurrencySaga. rewrite Hmissing.
  unfold unknownCurrency. rewrite Hcur. simpl.
  match goal with |- context [siad w ?r] => destruct (siad w r) as [? | e] end; simpl.
  - split; [reflexivity | eauto].
  - sendError_cases e; (split; [reflexivity | eauto]).
Qed.

Lemma sendCurrency_passes_siafunds_through_witness :
  let cmd := sendCommand (VStr "siafunds") VNull (VNum 7) in
  let t := trace (wallet (Normal VNull)) (sendCurrencySaga cmd) [] in
  conversions t = []
  /\ exists rest,
      t = Requested (sendRequest "siafunds" (VNum 7) VNull) :: rest.
Proof.
  refine (sendCurrency_passes_siafunds_through
            (wallet (Normal VNull))
            (sendCommand (VStr "siafunds") VNull (VNum 7)) []
            eq_refl _ _);
    simpl; intuition discriminate.
Defined.

(** ** GetBalance: all or nothing *)

Lemma conversions_app (t1 t2 : list event) :
  conversions (t1 ++ t2)%list = (conversions t1 ++ conversions t2)%list.
Proof. apply flat_map_app. Qed.

Lemma conversions_observed (l : list action) : conversions (map Observed l) = [].
Proof. induction l; simpl; auto. Qed.


(** ** Which saga converts what *)

Section Conversions.

Variable w : world.
Variable store : list action.

Ltac unconverted := unfold trace; explore; reflexivity.

Lemma getLockStatus_converts_nothing :
  conversions (trace w getLockStatusSaga store) = [].
Proof. unconverted. Qed.

Lemma walletUnlock_converts_nothing (cmd : command) :
  conversions (trace w (walletUnlockSaga cmd) store) = [].
Proof. unconverted. Qed.

Lemma walletLock_converts_nothing :
  conversions (trace w walletLockSaga store) = [].
Proof. unconverted. Qed.

Lemma getTransactions_converts_nothing :
  conversions (trace w getTransactionsSaga store) = [].
Proof. unconverted. Qed.

Lemma getNewReceiveAddress_converts_nothing :
  conversions (trace w getNewReceiveAddressSaga store) = [].
Proof. unconverted. Qed.

Lemma getSyncState_converts_nothing :
  conversions (trace w getSyncStateSaga store) = [].
Proof. unconverted. Qed.

Lemma createWallet_converts_nothing :
  conversions (trace w createWalletSaga store) = [].
Proof.
  unfold trace. simpl.
  destruct (siad w _) as [response | e]; simpl;
    [destruct (getField response "primaryseed") as [seed | e]; simpl |].
  - destruct (await_observes SET_UNLOCKED store) as [l Hl].
    destruct (await SET_UNLOCKED store) as [seen [[a rest] |]];
      simpl in Hl; subst seen; simpl;
      rewrite ?conversions_app, conversions_observed; reflexivity.
  - explore; reflexivity.
  - explore; reflexivity.
Qed.

Lemma getBalance_converts_hastings (h : helper) (v : value) :
  In (Converted h v) (trace w getBalanceSaga store) -> h = hastingsToSiacoins.
Proof.
  unfold trace. explore; intros H; membership H;
    injection H as <- _; reflexivity.
Qed.

Lemma sendCurrency_converts_the_amount (cmd : command) (h : helper) (v : value) :
  In (Converted h v) (trace w (sendCurrencySaga cmd) store) ->
  h = siacoinsToHastings /\ v = amount cmd /\ currencytype cmd = VStr "siacoins".
Proof.
  unfold trace, sendCurrencySaga.
  destruct (missingField cmd); [simpl; intros H; membership H |].
  destruct (unknownCurrency cmd); [simpl; intros H; membership H |].
  destruct (isString (currencytype cmd) "siacoins") eqn:Hcur.
  - apply isString_eq in Hcur.
    explore; intros H; membership H; injection H as <- <-; auto.
  - explore; intros H; membership H.
Qed.

End Conversions.

Lemma In_conversions (h : helper) (v : value) (t : list event) :
  In (Converted h v) t -> In v (conversions t).
Proof.
  intros H. unfold conversions. apply in_flat_map.
  exists (Converted h v). split; [exact H | now left].
Qed.

(** X14.  The two conversions of [SiaAPI] are called by one saga each:
    [hastingsToSiacoins] by GetBalance only, [siacoinsToHastings] by
    SendCurrency only, and there only on the amount of a command whose
    currency type is "siacoins". *)
Theorem conversions_belong_to_two_sagas :
  forall (w : world) (cmd : command) (s : saga unit) (store : list action)
         (h : helper) (v : value),
    watch cmd = Some s ->
    In (Converted h v) (trace w s store) ->
    (type cmd = GET_BALANCE /\ h = hastingsToSiacoins)
    \/ (type cmd = SEND_CURRENCY /\ h = siacoinsToHastings
        /\ v = amount cmd /\ currencytype cmd = VStr "siacoins").
Proof.
  intros w cmd s store h v Hwatch Hin. unfold watch in Hwatch.
  pose proof (In_conversions h v _ Hin) as Hc.
  destruct (type cmd); try discriminate Hwatch; injection Hwatch as <-.
  - rewrite createWallet_converts_nothing in Hc. destruct Hc.
  - rewrite getLockStatus_converts_nothing in Hc. destruct Hc.
  - rewrite walletUnlock_converts_nothing in Hc. destruct Hc.
  - rewrite walletLock_converts_nothing in Hc. destruct Hc.
  - left. split; [reflexivity |]. eapply getBalance_converts_hastings. exact Hin.
  - rewrite getTransactions_converts_nothing in Hc. destruct Hc.
  - rewrite getNewReceiveAddress_converts_nothing in Hc. destruct Hc.
  - right. split; [reflexivity |].
    eapply sendCurrency_converts_the_amount. exact Hin.
  - rewrite getSyncState_converts_nothing in Hc. destruct Hc.
Qed.

Lemma conversions_belong_to_two_sagas_witness :
  let cmd := sendCommand (VStr "siacoins") (VNum 3) (VStr "addr") in
  (SEND_CURRENCY = GET_BALANCE /\ siacoinsToHastings = hastingsToSiacoins)
  \/ (SEND_CURRENCY = SEND_CURRENCY /\ siacoinsToHastings = siacoinsToHastings
      /\ VNum 3 = amount cmd /\ currencytype cmd = VStr "siacoins").
Proof.
  refine (conversions_belong_to_two_sagas
            (wallet (Normal VNull))
            (sendCommand (VStr "siacoins") (VNum 3) (VStr "addr"))
            (sendCurrencySaga (sendCommand (VStr "siacoins") (VNum 3) (VStr "addr")))
            [] siacoinsToHastings (VNum 3) eq_refl _).
  vm_compute. left. reflexivity.
Defined.

(** ** Exceptions that leave a saga *)

Lemma getField_throws_a_TypeError (v : value) (key : string) (e : value) :
  getField v key = Abrupt e -> exists m, e = TypeError m.
Proof.
  destruct v; simpl; try discriminate;
    try (intros H; injection H as <-; eexists; reflexivity).
  destruct (String.eqb key "message"); [discriminate |].
  destruct (String.eqb key "name"); discriminate.
Qed.

Lemma toString_throws_a_TypeError (v e : value) :
  JS.toString v = Abrupt e -> exists m, e = TypeError m.
Proof.
  destruct v as [| | [|] | n | s | fields | name [| c message]]; simpl;
    try discriminate; intros H; injection H as <-; eexists; reflexivity.
Qed.

Ltac escaped :=
  unfold trace; explore;
  intros Hend; try discriminate Hend; injection Hend as <-;
  match goal with
  | H : getField _ _ = Abrupt ?e |- exists m, ?e = _ =>
      exact (getField_throws_a_TypeError _ _ _ H)
  | H : JS.toString _ = Abrupt ?e |- exists m, ?e = _ =>
      exact (toString_throws_a_TypeError _ _ H)
  end.

Section Escapes.

Variable w : world.
Variable store : list action.
Variable e : value.

Lemma getLockStatus_escape :
  snd (run w getLockStatusSaga store) = Uncaught e -> exists m, e = TypeError m.
Proof. escaped. Qed.

Lemma walletUnlock_escape (cmd : command) :
  snd (run w (walletUnlockSaga cmd) store) = Uncaught e -> exists m, e = TypeError m.
Proof. escaped. Qed.

Lemma walletLock_escape :
  snd (run w walletLockSaga store) = Uncaught e -> exists m, e = TypeError m.
Proof. escaped. Qed.

Lemma getBalance_escape :
  snd (run w getBalanceSaga store) = Uncaught e -> exists m, e = TypeError m.
Proof. escaped. Qed.

Lemma getTransactions_escape :
  snd (run w getTransactionsSaga store) = Uncaught e -> exists m, e = TypeError m.
Proof. escaped. Qed.

Lemma getNewReceiveAddress_escape :
  snd (run w getNewReceiveAddressSaga store) = Uncaught e -> exists m, e = TypeError m.
Proof. escaped. Qed.

Lemma getSyncState_escape :
  snd (run w getSyncStateSaga store) = Uncaught e -> exists m, e = TypeError m.
Proof. escaped. Qed.

Lemma createWallet_escape :
  snd (run w createWalletSaga store) = Uncaught e -> exists m, e = TypeError m.
Proof.
  simpl. destruct (siad w _) as [response | e'] eqn:Hresp; simpl;
    [destruct (getField response "primaryseed") as [seed | e'] eqn:Hseed; simpl |].
  - destruct (await SET_UNLOCKED store) as [seen [[a rest] |]]; simpl; discriminate.
  - escaped.
  - escaped.
Qed.

Lemma sendCurrency_escape (cmd : command) :
  snd (run w (sendCurrencySaga cmd) store) = Uncaught e -> exists m, e = TypeError m.
Proof.
  unfold sendCurrencySaga.
  destruct (missingField cmd); [simpl; discriminate |].
  destruct (unknownCurrency cmd); [simpl; discriminate |].
  destruct (isString (currencytype cmd) "siacoins"); escaped.
Qed.

End Escapes.

Lemma outcome_is_not_an_escape (r : list event * status) (e : value) :
  succeeded r \/ notified r \/ unlockFailed r \/ onlyLogged r ->
  snd r <> Uncaught e.
Proof.
  unfold succeeded, notified, unlockFailed, onlyLogged.
  intros [(_ & _ & _ & _ & [H | H]) | [(_ & _ & _ & H) | [(_ & _ & _ & H) | (_ & _ & _ & H)]]];
    rewrite H; discriminate.
Qed.



(** ** CreateWallet: when it stays suspended *)

(** X16.  CreateWallet ends suspended in its [take] exactly when
    /wallet/init answered with a value that has properties and no
    setUnlocked reaches the store; it has then shown the dialog and
    seen every action of the store.  A failed init never leaves it
    waiting. *)
Theorem createWallet_waits_exactly_without_unlock :
  forall (w : world) (store : list action),
    ((exists pattern, snd (run w createWalletSaga store) = Waiting pattern)
     <-> (exists response seed,
             siad w createRequest = Normal response
             /\ getField response "primaryseed" = Normal seed)
         /\ ~ In setUnlocked store)
    /\ (forall pattern,
           snd (run w createWalletSaga store) = Waiting pattern ->
           pattern = SET_UNLOCKED
           /\ exists seed,
               trace w createWalletSaga store
               = Requested createRequest
                   :: Emitted (showNewWalletDialog seed seed)
                   :: map Observed store).
Proof.
  intros w store.
  destruct (siad w createRequest) as [response | e] eqn:Hresp;
    [destruct (getField response "primaryseed") as [seed | e] eqn:Hseed |].
  - unfold trace. rewrite (createWallet_run w store response seed Hresp Hseed).
    destruct (await_cases SET_UNLOCKED store)
      as [(before & a & after & -> & _ & Ha & ->) | [Hnone ->]]; simpl.
    + apply hasType_SET_UNLOCKED in Ha. subst a.
      split; [split |].
      * intros [pattern H]. discriminate H.
      * intros [_ H]. destruct H. apply in_or_app. right. now left.
      * intros pattern H. discriminate H.
    + split; [split |].
      * intros _. split; [eauto |].
        intros Hin. apply Hnone in Hin. discriminate Hin.
      * intros _. eauto.
      * intros pattern H. injection H as <-. eauto.
  - assert (Hend : forall pattern,
               snd (run w createWalletSaga store) <> Waiting pattern).
    { simpl. fold createRequest. rewrite Hresp. simpl. rewrite Hseed.
      explore; discriminate. }
    split; [split |].
    + intros [pattern H]. destruct (Hend _ H).
    + intros [(r & s & Hr & Hs) _]. congruence.
    + intros pattern H. destruct (Hend _ H).
  - assert (Hend : forall pattern,
               snd (run w createWalletSaga store) <> Waiting pattern).
    { simpl. fold createRequest. rewrite Hresp. explore; discriminate. }
    split; [split |].
    + intros [pattern H]. destruct (Hend _ H).
    + intros [(r & s & Hr & Hs) _]. congruence.
    + intros pattern H. destruct (Hend _ H).
Qed.

Lemma createWallet_waits_exactly_without_unlock_witness :
  let w := wallet (Normal (VObj [("primaryseed", VStr "abbey lunar fences")])) in
  SET_UNLOCKED = SET_UNLOCKED
  /\ exists seed,
      trace w createWalletSaga [setLocked; setEncrypted]
      = Requested createRequest
          :: Emitted (showNewWalletDialog seed seed)
          :: map Observed [setLocked; setEncrypted].
Proof.
  exact (proj2 (createWallet_waits_exactly_without_unlock
                  (wallet (Normal (VObj [("primaryseed", VStr "abbey lunar fences")])))
                  [setLocked; setEncrypted])
               SET_UNLOCKED eq_refl).
Defined.

(** ** Responses without properties, and what failures show *)

(** X17.  A request answered with [undefined] or [null] counts as a
    failure for every saga that reads the response: CreateWallet and
    GetNewReceiveAddress dispatch nothing and show one notification,
    GetLockStatus, GetBalance and GetSyncState dispatch nothing, show
    nothing and write one line to the console. *)
Theorem empty_response_is_a_failure :
  forall (w : world) (cmd : command) (s : saga unit) (store : list action),
    watch cmd = Some s ->
    readsResponse (type cmd) = true ->
    (forall request, exists response,
        siad w request = Normal response /\ nullish response = true) ->
    let t := trace w s store in
    emitted t = []
    /\ snd (run w s store) = Finished
    /\ if silent (type cmd)
       then notifications t = [] /\ exists line, logs t = [line]
       else logs t = [] /\ exists text, notifications t = [VStr text].
Proof.
  intros w cmd s store Hwatch Hreads Hempty. unfold watch in Hwatch. cbv zeta.
  destruct (type cmd); try discriminate Hreads; injection Hwatch as <-;
    unfold trace; simpl;
    match goal with
    | |- context [siad w ?r] =>
        destruct (Hempty r) as (response & -> & Hnull)
    end;
    destruct response; try discriminate Hnull; simpl; eauto 7.
Qed.

Lemma empty_response_is_a_failure_witness :
  let t := trace (wallet (Normal VNull)) getNewReceiveAddressSaga [] in
  emitted t = []
  /\ snd (run (wallet (Normal VNull)) getNewReceiveAddressSaga []) = Finished
  /\ logs t = []
  /\ exists text, notifications t = [VStr text].
Proof.
  refine (empty_response_is_a_failure
            (wallet (Normal VNull))
            {| type := GET_NEW_RECEIVE_ADDRESS; password := VUndefined;
               currencytype := VUndefined; amount := VUndefined;
               destination := VUndefined |}
            getNewReceiveAddressSaga [] eq_refl eq_refl _).
  intros request. exists VNull. split; reflexivity.
Defined.

Section Channels.

Variable w : world.
Variable store : list action.

Ltac channel := unfold trace; explore; reflexivity.

Lemma getLockStatus_never_notifies :
  notifications (trace w getLockStatusSaga store) = [].
Proof. channel. Qed.

Lemma getBalance_never_notifies :
  notifications (trace w getBalanceSaga store) = [].
Proof. channel. Qed.

Lemma getTransactions_never_notifies :
  notifications (trace w getTransactionsSaga store) = [].
Proof. channel. Qed.

Lemma getSyncState_never_notifies :
  notifications (trace w getSyncStateSaga store) = [].
Proof. channel. Qed.

Lemma walletUnlock_never_logs (cmd : command) :
  logs (trace w (walletUnlockSaga cmd) store) = []
  /\ notifications (trace w (walletUnlockSaga cmd) store) = [].
Proof. unfold trace; explore; split; reflexivity. Qed.

Lemma walletLock_never_logs : logs (trace w walletLockSaga store) = [].
Proof. channel. Qed.

Lemma getNewReceiveAddress_never_logs :
  logs (trace w getNewReceiveAddressSaga store) = [].
Proof. channel. Qed.

Lemma sendCurrency_never_logs (cmd : command) :
  logs (trace w (sendCurrencySaga cmd) store) = [].
Proof.
  unfold sendCurrencySaga.
  destruct (missingField cmd); [reflexivity |].
  destruct (unknownCurrency cmd); [reflexivity |].
  destruct (isString (currencytype cmd) "siacoins"); channel.
Qed.

Lemma createWallet_never_logs : logs (trace w createWalletSaga store) = [].
Proof.
  unfold trace. simpl.
  destruct (siad w _) as [response | e]; simpl;
    [destruct (getField response "primaryseed") as [seed | e]; simpl |].
  - destruct (await_observes SET_UNLOCKED store) as [l Hl].
    destruct (await SET_UNLOCKED store) as [seen [[a rest] |]];
      simpl in Hl; subst seen; simpl;
      rewrite ?logs_app, logs_observed; reflexivity.
  - explore; reflexivity.
  - explore; reflexivity.
Qed.

End Channels.

(** X18.  Each saga has one channel for its failures and never uses
    another, whatever the world does: the four polls never show a
    notification, UnlockWallet neither shows a notification nor writes
    to the console, and the four remaining sagas never write to the
    console. *)
Theorem each_saga_keeps_to_its_channel :
  forall (w : world) (cmd : command) (s : saga unit) (store : list action),
    watch cmd = Some s ->
    let t := trace w s store in
    (silent (type cmd) = true -> notifications t = [])
    /\ (silent (type cmd) = false -> logs t = [])
    /\ (type cmd = UNLOCK_WALLET -> notifications t = []).
Proof.
  intros w cmd s store Hwatch. unfold watch in Hwatch. cbv zeta.
  destruct (type cmd); try discriminate Hwatch; injection Hwatch as <-;
    cbn [silent]; (split; [| split]); intros H; try discriminate H.
  - apply createWallet_never_logs.
  - apply getLockStatus_never_notifies.
  - apply walletUnlock_never_logs.
  - apply walletUnlock_never_logs.
  - apply walletLock_never_logs.
  - apply getBalance_never_notifies.
  - apply getTransactions_never_notifies.
  - apply getNewReceiveAddress_never_logs.
  - apply sendCurrency_never_logs.
  - apply getSyncState_never_notifies.
Qed.

Lemma each_saga_keeps_to_its_channel_witness :
  let t := trace (wallet (Abrupt VUndefined)) (walletUnlockSaga samplePassword) [] in
  (false = true -> notifications t = [])
  /\ (false = false -> logs t = [])
  /\ (UNLOCK_WALLET = UNLOCK_WALLET -> notifications t = []).
Proof.
  exact (each_saga_keeps_to_its_channel
           (wallet (Abrupt VUndefined)) samplePassword
           (walletUnlockSaga samplePassword) [] eq_refl).
Defined.


